(** * duckrail: query composition, execution and result tables

    A shallow embedding of [src/writer.py] (the [TableMaker] builder) and
    [src/main.py] (the [Analyzer] session and its five report methods),
    with the constants of [src/config.py].

    Python objects that are mutated in place ([TableMaker], its [rich]
    table, the DuckDB connection) are modelled by explicit state passing in
    a small state-and-exception monad; exceptions are values of [exn].
    The DuckDB engine and the [rich] table are libraries outside the
    repository: the engine is an arbitrary function from statements to
    answers, the table records what it is given.  [get_tbl_count],
    [show_count] and [analyze], which only print, are left out. *)

From Stdlib Require Import Ascii String.
From stdpp Require Import gmap strings list pretty sorting.

Local Open Scope string_scope.
Local Open Scope list_scope.

(** ** Exceptions *)

(** Modelled from the spec: [errors.py] is not among the sources; only its
    class [ErrNoResults] is imported by [main.py].  The spec describes it as
    the empty-result error, a class of its own ("EmptyResultError ...
    surfaced to the caller distinctly").  [Exception msg] is an instance of
    Python's built-in [Exception] itself, as raised by [raise Exception(...)];
    [EngineError] stands for whatever the DuckDB engine raises. *)
Inductive exn : Type :=
  | Exception (msg : string)
  | ErrNoResults
  | EngineError (msg : string).

(** ** A state-and-exception monad

    [M S A] is a Python method body acting on a mutable object of type [S]:
    it returns either a raised exception or a value, together with the
    object as the call left it (mutations made before a [raise] stay). *)

Definition M (S A : Type) : Type := S → (exn + A) * S.

Definition ret {S A} (a : A) : M S A := λ s, (inr a, s).

Definition raise {S A} (e : exn) : M S A := λ s, (inl e, s).

Definition bind {S A B} (m : M S A) (k : A → M S B) : M S B :=
  λ s, match m s with
       | (inl e, s') => (inl e, s')
       | (inr a, s') => k a s'
       end.

Definition get {S} : M S S := λ s, (inr s, s).

Definition modify {S} (f : S → S) : M S unit := λ s, (inr tt, f s).

Declare Scope py_scope.
Delimit Scope py_scope with py.
Notation "x <~ m ;; k" := (bind m (λ x, k))
  (at level 100, m at next level, right associativity) : py_scope.
Notation "m ;;; k" := (bind m (λ _, k))
  (at level 100, right associativity) : py_scope.
Local Open Scope py_scope.

(** [for x in l: body(x)]; a [raise] in the body leaves the loop. *)
Fixpoint for_ {S A} (l : list A) (body : A → M S unit) : M S unit :=
  match l with
  | [] => ret tt
  | x :: l' => body x ;;; for_ l' body
  end.

(** ** Python string helpers *)

(** The double-quote character, as a one-character string. *)
Definition dq : string := String "034"%char EmptyString.

Definition hex_digit (n : nat) : string :=
  String (nth n (list_ascii_of_string "0123456789abcdef") "0"%char) EmptyString.

Fixpoint contains_char (c : ascii) (s : string) : bool :=
  match s with
  | EmptyString => false
  | String d s' => if Ascii.eqb c d then true else contains_char c s'
  end.

(** One character of [repr(s)], [q] being the quote that delimits it. *)
Definition repr_char (q c : ascii) : string :=
  let n := nat_of_ascii c in
  if Ascii.eqb c "\"%char then "\\"
  else if Ascii.eqb c q then String "\"%char (String q EmptyString)
  else if Nat.eqb n 9 then "\t"
  else if Nat.eqb n 10 then "\n"
  else if Nat.eqb n 13 then "\r"
  else if (n <? 32)%nat || Nat.eqb n 127
       then "\x" +:+ hex_digit (n / 16) +:+ hex_digit (n mod 16)
  else String c EmptyString.

Fixpoint repr_body (q : ascii) (s : string) : string :=
  match s with
  | EmptyString => EmptyString
  | String c s' => repr_char q c +:+ repr_body q s'
  end.

(** [repr(s)] of a [str], as the [!r] conversion of an f-string applies it:
    single quotes, unless the text has a single quote and no double quote.
    (Given for ASCII text; the file references of [config.py] are ASCII.) *)
Definition py_repr (s : string) : string :=
  let q := if contains_char "'"%char s && negb (contains_char "034"%char s)
           then "034"%char else "'"%char in
  String q EmptyString +:+ repr_body q s +:+ String q EmptyString.

(** ** [rich.table.Table], as far as the builder drives it

    The table is an object of the [rich] library.  It is represented by what
    the builder hands to it: the title, the headers given to [add_column] in
    order, and the cell lists given to [add_row] in order. *)
Module Table.

Record t : Type := mk {
  title : string;
  columns : list string;
  rows : list (list string)
}.

(** [Table(title=title)] *)
Definition new (title : string) : t := mk title [] [].

(** [table.add_column(header)] *)
Definition add_column (header : string) (tb : t) : t :=
  mk (title tb) (columns tb ++ [header]) (rows tb).

(** [table.add_row] applied to the unpacked cells *)
Definition add_row (cells : list string) (tb : t) : t :=
  mk (title tb) (columns tb) (rows tb ++ [cells]).

End Table.

(** ** [writer.py]: class [TableMaker] *)
Module TableMaker.

Section WithCells.

(** The values found in result tuples, and Python's [str] on them. *)
Context {cell : Type} (str : cell → string).

(** [self.table], [self.cols], [self.rows].

    [cols] holds the 1-tuples [(name,)], given here by their only
    component.  [rows] holds one generator object
    [(str(data) for data in row)] per accepted row; a generator is given
    by the items of [row] it has not yet yielded, [str] being applied
    when an item is drawn. *)
Record t : Type := mk {
  table : Table.t;
  cols : list string;
  rows : list (list cell)
}.

(** [TableMaker(title)] *)
Definition new (title : string) : t := mk (Table.new title) [] [].

(** [self.cols.append((name,))] *)
Definition with_column (name : string) : M t unit :=
  modify (λ self, mk (table self) (cols self ++ [name]) (rows self)).

Definition mismatch_msg (got expected : nat) : string :=
  "Mismatched column count: got " +:+ pretty got
    +:+ ", expected " +:+ pretty expected.

(** The loop of [with_rows]: check the row, then append its generator. *)
Definition with_rows (rows_arg : list (list cell)) : M t unit :=
  for_ rows_arg (λ row,
    self <~ get ;;
    if negb (length row =? length (cols self))%nat
    then raise (Exception (mismatch_msg (length row) (length (cols self))))
    else modify (λ self, mk (table self) (cols self) (rows self ++ [row]))).

(** [self.table.add_row], applied to each stored generator unpacked, in
    turn: unpacking draws every pending item, so the generator stays behind
    exhausted. *)
Fixpoint add_rows (gens : list (list cell)) (tb : Table.t)
  : list (list cell) * Table.t :=
  match gens with
  | [] => ([], tb)
  | g :: gens' =>
      let '(done, tb') := add_rows gens' (Table.add_row (map str g) tb) in
      ([] :: done, tb')
  end.

(** [build]: the returned table is [self.table] itself. *)
Definition build : M t Table.t :=
  self <~ get ;;
  for_ (cols self) (λ col,
    modify (λ self, mk (Table.add_column col (table self))
                       (cols self) (rows self))) ;;;
  modify (λ self,
    let '(gens, tb) := add_rows (rows self) (table self) in
    mk tb (cols self) gens) ;;;
  self <~ get ;;
  ret (table self).

(** The calls a client makes on a builder before [build], in the order
    it makes them. *)
Inductive op : Type :=
  | WithColumn (name : string)
  | WithRows (rows_arg : list (list cell)).

Definition call (o : op) : M t unit :=
  match o with
  | WithColumn name => with_column name
  | WithRows rows_arg => with_rows rows_arg
  end.

(** [TableMaker(title)], the calls [ops] chained on it, then [.build()]. *)
Definition chain (title : string) (ops : list op) : (exn + Table.t) * t :=
  (for_ ops call ;;; build) (new title).

(** The use the report methods make of the builder: the columns are
    declared, then the result rows are passed, then the table is built.
    An exception raised on the way is the outcome. *)
Definition table_of (title : string) (columns : list string)
    (result : list (list cell)) : exn + Table.t :=
  fst ((for_ columns with_column ;;; with_rows result ;;; build) (new title)).

(** What a sequence of calls amounts to: the names declared, the rows
    passed, and whether every row has as many items as columns had been
    declared when it was passed ([ncols] being declared beforehand). *)
Fixpoint declared (ops : list op) : list string :=
  match ops with
  | [] => []
  | WithColumn name :: ops' => name :: declared ops'
  | WithRows _ :: ops' => declared ops'
  end.

Fixpoint passed (ops : list op) : list (list cell) :=
  match ops with
  | [] => []
  | WithColumn _ :: ops' => passed ops'
  | WithRows rows_arg :: ops' => rows_arg ++ passed ops'
  end.

Fixpoint accepted (ncols : nat) (ops : list op) : bool :=
  match ops with
  | [] => true
  | WithColumn _ :: ops' => accepted (S ncols) ops'
  | WithRows rows_arg :: ops' =>
      forallb (λ row, length row =? ncols)%nat rows_arg && accepted ncols ops'
  end.

End WithCells.

End TableMaker.

(** Text that [repr] leaves as it is between single quotes: printable
    ASCII with no backslash and no single quote. *)
Definition plain_char (c : ascii) : bool :=
  let n := nat_of_ascii c in
  negb (Ascii.eqb c "\"%char) && negb (Ascii.eqb c "'"%char)
    && (32 <=? n)%nat && (n <? 127)%nat.

Fixpoint plain (s : string) : bool :=
  match s with
  | EmptyString => true
  | String c s' => plain_char c && plain s'
  end.


(** [c.upper()] and [c.lower()] of one ASCII character. *)
Definition ascii_upper (c : ascii) : ascii :=
  let n := nat_of_ascii c in
  if (97 <=? n)%nat && (n <=? 122)%nat then ascii_of_nat (n - 32) else c.

Definition ascii_lower (c : ascii) : ascii :=
  let n := nat_of_ascii c in
  if (65 <=? n)%nat && (n <=? 90)%nat then ascii_of_nat (n + 32) else c.

Fixpoint lower (s : string) : string :=
  match s with
  | EmptyString => EmptyString
  | String c s' => String (ascii_lower c) (lower s')
  end.

(** [s.capitalize()]: the first character in upper case, the others in
    lower case.  (Given for ASCII text, as the keys of [self.files] are.) *)
Definition capitalize (s : string) : string :=
  match s with
  | EmptyString => EmptyString
  | String c s' => String (ascii_upper c) (lower s')
  end.

(** [p in s], for Python strings. *)
Fixpoint occurs (p s : string) : bool :=
  String.prefix p s ||
  match s with
  | EmptyString => false
  | String _ s' => occurs p s'
  end.

(** ** [config.py] *)

Definition SVCS_CSV_FILE : string := "data/services-2023.csv.gz".
Definition SVCS_CSV_URL : string :=
  "https://blobs.duckdb.org/nl-railway/services-2023.csv.gz".

Definition STAT_CSV_FILE : string := "data/stations-2022-01.csv".
Definition STAT_CSV_URL : string :=
  "https://blobs.duckdb.org/data/stations-2022-01.csv".

Definition DIST_CSV_FILE : string := "data/tariff-distances-2022-01.csv".
Definition DIST_CSV_URL : string :=
  "https://blobs.duckdb.org/data/tariff-distances-2022-01.csv".

Definition SVCS_TBL_NAME : string := "services".
Definition SVCS_BY_MONTH_TBL_NAME : string := "services_per_month".
Definition STAT_TBL_NAME : string := "stations".
Definition DIST_TBL_NAME : string := "distances".
Definition DIST_LNG_TBL_NAME : string := "distances_long".

(** ** [main.py]: class [Analyzer] *)
Module Analyzer.

(** A statement as [con.execute] receives it: the SQL text and the
    positional parameter values ([[]] when none are given). *)
Definition stmt : Type := string * list Z.

Section WithEngine.

Context {cell : Type} (str : cell → string).

(** The DuckDB engine behind [self.con] is outside the program.  Its
    answer to a statement (the rows [fetchall] returns, or the error it
    raises) is taken as a function of the statements the connection has
    executed before and of the statement itself. *)
Context (engine : list stmt → stmt → string + list (list cell)).

(** The attributes of [self].  [con] is the connection, given by the
    statements executed on it so far, oldest first; a connection fresh
    from [duckdb.connect(":memory:")] has executed none. *)
Record t : Type := mk {
  mode : string;
  con : list stmt;
  services_file : string;
  stations_file : string;
  distances_file : string;
  files : list (string * string);
  subqueries : gmap string string
}.

Definition set_con (c : list stmt) (self : t) : t :=
  mk (mode self) c (services_file self) (stations_file self)
     (distances_file self) (files self) (subqueries self).

(** [self.con.execute(qry, params)], followed by [.fetchall()] where the
    caller asks for the rows. *)
Definition execute (qry : string) (params : list Z)
  : M t (list (list cell)) :=
  λ self,
    let self' := set_con (con self ++ [(qry, params)]) self in
    match engine (con self) (qry, params) with
    | inl e => (inl (EngineError e), self')
    | inr result => (inr result, self')
    end.

(** The dictionary literal bound to [self.subqueries]. *)
Definition init_subqueries
  (services_file stations_file distances_file : string)
  : gmap string string :=
  <[ SVCS_BY_MONTH_TBL_NAME := "
            SELECT
                month(" +:+ dq +:+ "Service:Date" +:+ dq +:+ ") AS month,
                " +:+ dq +:+ "Stop:station name" +:+ dq +:+ " AS station,
                count(" +:+ "*) AS num_services
            FROM " +:+ py_repr services_file +:+ "
            GROUP BY ALL
            " ]>
  (<[ DIST_LNG_TBL_NAME := "
            UNPIVOT " +:+ DIST_TBL_NAME +:+ "
            ON COLUMNS (" +:+ "* EXCLUDE station)
            INTO NAME other_station VALUE distance
            " ]>
  (<[ SVCS_TBL_NAME := "FROM " +:+ py_repr services_file ]>
  (<[ STAT_TBL_NAME := "FROM " +:+ py_repr stations_file ]>
  (<[ DIST_TBL_NAME :=
        "FROM read_csv(" +:+ py_repr distances_file
          +:+ ", nullstr='XXX')" ]> ∅)))).

(** [self.mode == "remote"] *)
Definition is_remote (self : t) : bool := String.eqb (mode self) "remote".

(** The first statements of both [create_tbl] and [add_cte]:
    [subqry = self.subqueries.get(tbl)], then [if not subqry: raise ...],
    which fires when the key is absent or bound to the empty string. *)
Definition get_subquery (tbl : string) : M t string :=
  self <~ get ;;
  match subqueries self !! tbl with
  | None | Some EmptyString =>
      raise (Exception ("No subquery defined for " +:+ tbl))
  | Some subqry => ret subqry
  end.

Definition create_tbl (tbl : string) : M t unit :=
  subqry <~ get_subquery tbl ;;
  execute ("
        CREATE TABLE " +:+ tbl +:+ " AS (" +:+ subqry +:+ ")
        ") [] ;;;
  ret tt.

Definition load_local_data : M t unit :=
  create_tbl SVCS_TBL_NAME ;;;
  create_tbl SVCS_BY_MONTH_TBL_NAME ;;;
  create_tbl STAT_TBL_NAME ;;;
  create_tbl DIST_TBL_NAME ;;;
  create_tbl DIST_LNG_TBL_NAME.

(** The f-string [add_cte] returns. *)
Definition cte_text (qry tbl subqry : string) : string := "
        WITH " +:+ tbl +:+ " AS (" +:+ subqry +:+ ")
        " +:+ qry +:+ "
        ".

Definition add_cte (qry tbl : string) : M t string :=
  subqry <~ get_subquery tbl ;;
  ret (cte_text qry tbl subqry).

(** The attribute assignments of [__init__], before its last statement. *)
Definition init_attrs (mode : string) : t :=
  let services_file :=
    if String.eqb mode "local" then SVCS_CSV_FILE else SVCS_CSV_URL in
  let stations_file :=
    if String.eqb mode "local" then STAT_CSV_FILE else STAT_CSV_URL in
  let distances_file :=
    if String.eqb mode "local" then DIST_CSV_FILE else DIST_CSV_URL in
  mk mode [] services_file stations_file distances_file
     [("services", services_file);
      ("stations", stations_file);
      ("distances", distances_file)]
     (init_subqueries services_file stations_file distances_file).

(** [__init__(self, mode)]: the outcome of the constructor and the object
    as the constructor left it. *)
Definition init (mode : string) : (exn + unit) * t :=
  (if String.eqb mode "local" then load_local_data else ret tt)
    (init_attrs mode).

(** [Analyzer(...)]: [None] when the caller passes no [mode], which then
    takes its default ["remote"]. *)
Definition new (mode : option string) : (exn + unit) * t :=
  init (default "remote" mode).

(** A method chain on a freshly constructed object [obj], inside a
    method of [self]: an exception it raises is raised to the caller. *)
Definition on_new {S T A} (obj : T) (m : M T A) : M S A :=
  λ self, (fst (m obj), self).

(** The text first bound to [qry] in each report method. *)

Definition get_busiest_by_month_qry : string := "
        SELECT
            month,
            arg_max(station, num_services) AS station,
            max(num_services) AS num_services
        FROM " +:+ SVCS_BY_MONTH_TBL_NAME +:+ "
        WHERE month <= $1
        GROUP BY ALL;
        ".

Definition get_top_n_stations_in_period_qry : string := "
        SELECT month, month_name, array_agg(station) AS top_stations
        FROM (
            SELECT
                month,
                strftime(make_date(2023, month, 1), '%B') AS month_name,
                rank() OVER
                    (PARTITION BY month ORDER BY num_services DESC) AS rank,
                station,
                num_services
            FROM " +:+ SVCS_BY_MONTH_TBL_NAME +:+ "
            WHERE month BETWEEN $1 AND $2
        )
        WHERE rank <= $3
        GROUP BY ALL
        ORDER BY month;
        ".

Definition get_stations_qry : string := "
        SELECT
            id,
            name_short,
            name_long,
            country,
            printf('%.2f', geo_lat) AS latitude,
            printf('%.2f', geo_lng) AS longitude
        FROM " +:+ STAT_TBL_NAME +:+ "
        LIMIT $1
        ".

Definition get_distances_qry : string := "
        SELECT station, other_station, distance
        FROM " +:+ DIST_LNG_TBL_NAME +:+ "
        LIMIT $1
        ".

Definition get_station_pairs_qry (order : string) : string := "
        SELECT
            s1.name_long AS station1,
            s2.name_long AS station2,
            " +:+ DIST_LNG_TBL_NAME +:+ ".distance
        FROM " +:+ DIST_LNG_TBL_NAME +:+ "
        JOIN
            " +:+ STAT_TBL_NAME +:+ " s1 ON " +:+ DIST_LNG_TBL_NAME +:+ ".station = s1.code
        JOIN
            " +:+ STAT_TBL_NAME +:+ " s2 ON " +:+ DIST_LNG_TBL_NAME +:+ ".other_station = s2.code
        WHERE
            s1.country = 'NL'
            AND s2.country = 'NL'
            AND station < other_station
        ORDER BY distance " +:+ order +:+ "
        LIMIT $1
        ".

(** [if not result: raise ErrNoResults()] *)
Definition check_result (result : list (list cell)) : M t unit :=
  match result with
  | [] => raise ErrNoResults
  | _ :: _ => ret tt
  end.

Definition get_busiest_by_month (month_cutoff : Z) : M t Table.t :=
  let qry := get_busiest_by_month_qry in
  self <~ get ;;
  qry <~ (if is_remote self
          then add_cte qry SVCS_BY_MONTH_TBL_NAME else ret qry) ;;
  result <~ execute qry [month_cutoff] ;;
  check_result result ;;;
  on_new (TableMaker.new "Busiest Station by Month")
    (TableMaker.with_column "month" ;;;
     TableMaker.with_column "station" ;;;
     TableMaker.with_column "num_services" ;;;
     TableMaker.with_rows result ;;;
     TableMaker.build str).

Definition get_top_n_stations_in_period (n start end_ : Z)
  : M t Table.t :=
  let qry := get_top_n_stations_in_period_qry in
  self <~ get ;;
  qry <~ (if is_remote self
          then add_cte qry SVCS_BY_MONTH_TBL_NAME else ret qry) ;;
  result <~ execute qry [start; end_; n] ;;
  check_result result ;;;
  on_new (TableMaker.new ("Top " +:+ pretty n +:+ " Stations in Months "
                            +:+ pretty start +:+ "-" +:+ pretty end_))
    (TableMaker.with_column "month" ;;;
     TableMaker.with_column "month_name" ;;;
     TableMaker.with_column "top_stations" ;;;
     TableMaker.with_rows result ;;;
     TableMaker.build str).

Definition get_stations (limit : Z) : M t Table.t :=
  let qry := get_stations_qry in
  self <~ get ;;
  qry <~ (if is_remote self then add_cte qry STAT_TBL_NAME else ret qry) ;;
  result <~ execute qry [limit] ;;
  check_result result ;;;
  on_new (TableMaker.new "Stations")
    (TableMaker.with_column "id" ;;;
     TableMaker.with_column "name_short" ;;;
     TableMaker.with_column "name_long" ;;;
     TableMaker.with_column "country" ;;;
     TableMaker.with_column "latitude" ;;;
     TableMaker.with_column "longitude" ;;;
     TableMaker.with_rows result ;;;
     TableMaker.build str).

Definition get_distances (limit : Z) : M t Table.t :=
  let qry := get_distances_qry in
  self <~ get ;;
  qry <~ (if is_remote self
          then add_cte qry DIST_LNG_TBL_NAME else ret qry) ;;
  result <~ execute qry [limit] ;;
  check_result result ;;;
  on_new (TableMaker.new "Station Pair Distances")
    (TableMaker.with_column "station" ;;;
     TableMaker.with_column "other_station" ;;;
     TableMaker.with_column "distance" ;;;
     TableMaker.with_rows result ;;;
     TableMaker.build str).

Definition get_station_pairs (order : string) (limit : Z)
  : M t Table.t :=
  let qry := get_station_pairs_qry order in
  result <~ execute qry [limit] ;;
  check_result result ;;;
  on_new (TableMaker.new
            ((if String.eqb order "DESC" then "Furthest" else "Shortest")
               +:+ " Station Distances"))
    (TableMaker.with_column "station1" ;;;
     TableMaker.with_column "station2" ;;;
     TableMaker.with_column "distance" ;;;
     TableMaker.with_rows result ;;;
     TableMaker.build str).

(** A call of one of the five report methods, with its arguments. *)
Inductive report : Type :=
  | GetBusiestByMonth (month_cutoff : Z)
  | GetTopNStationsInPeriod (n start end_ : Z)
  | GetStations (limit : Z)
  | GetDistances (limit : Z)
  | GetStationPairs (order : string) (limit : Z).

Definition call (r : report) : M t Table.t :=
  match r with
  | GetBusiestByMonth month_cutoff => get_busiest_by_month month_cutoff
  | GetTopNStationsInPeriod n start end_ =>
      get_top_n_stations_in_period n start end_
  | GetStations limit => get_stations limit
  | GetDistances limit => get_distances limit
  | GetStationPairs order limit => get_station_pairs order limit
  end.

(** What the five methods differ in: the text first bound to [qry], the
    table [add_cte] is asked for in remote mode (if the method asks at
    all), the parameter values, the title and the columns. *)

Definition base_query (r : report) : string :=
  match r with
  | GetBusiestByMonth _ => get_busiest_by_month_qry
  | GetTopNStationsInPeriod _ _ _ => get_top_n_stations_in_period_qry
  | GetStations _ => get_stations_qry
  | GetDistances _ => get_distances_qry
  | GetStationPairs order _ => get_station_pairs_qry order
  end.

Definition cte_table (r : report) : option string :=
  match r with
  | GetBusiestByMonth _ => Some SVCS_BY_MONTH_TBL_NAME
  | GetTopNStationsInPeriod _ _ _ => Some SVCS_BY_MONTH_TBL_NAME
  | GetStations _ => Some STAT_TBL_NAME
  | GetDistances _ => Some DIST_LNG_TBL_NAME
  | GetStationPairs _ _ => None
  end.

Definition arguments (r : report) : list Z :=
  match r with
  | GetBusiestByMonth month_cutoff => [month_cutoff]
  | GetTopNStationsInPeriod n start end_ => [start; end_; n]
  | GetStations limit => [limit]
  | GetDistances limit => [limit]
  | GetStationPairs _ limit => [limit]
  end.

Definition title_of (r : report) : string :=
  match r with
  | GetBusiestByMonth _ => "Busiest Station by Month"
  | GetTopNStationsInPeriod n start end_ =>
      "Top " +:+ pretty n +:+ " Stations in Months "
        +:+ pretty start +:+ "-" +:+ pretty end_
  | GetStations _ => "Stations"
  | GetDistances _ => "Station Pair Distances"
  | GetStationPairs order _ =>
      (if String.eqb order "DESC" then "Furthest" else "Shortest")
        +:+ " Station Distances"
  end.

Definition columns_of (r : report) : list string :=
  match r with
  | GetBusiestByMonth _ => ["month"; "station"; "num_services"]
  | GetTopNStationsInPeriod _ _ _ => ["month"; "month_name"; "top_stations"]
  | GetStations _ =>
      ["id"; "name_short"; "name_long"; "country"; "latitude"; "longitude"]
  | GetDistances _ => ["station"; "other_station"; "distance"]
  | GetStationPairs _ _ => ["station1"; "station2"; "distance"]
  end.

(** The query text a method hands to [execute]. *)
Definition compose (r : report) : M t string :=
  match cte_table r with
  | Some tbl =>
      self <~ get ;;
      if is_remote self then add_cte (base_query r) tbl
      else ret (base_query r)
  | None => ret (base_query r)
  end.

(** The common shape of the five method bodies. *)
Definition shape (r : report) : M t Table.t :=
  qry <~ compose r ;;
  result <~ execute qry (arguments r) ;;
  check_result result ;;;
  on_new (TableMaker.new (title_of r))
    (for_ (columns_of r) TableMaker.with_column ;;;
     TableMaker.with_rows result ;;;
     TableMaker.build str).

(** The statements a computation [m] hands to the engine when it runs on
    [self]: what the connection has executed afterwards, beyond what it
    had executed before. *)
Definition executed {A} (m : M t A) (self : t) : list stmt :=
  drop (length (con self)) (con (snd (m self))).

(** The session after the report calls [rs], made one after the other
    (whatever each of them returned or raised). *)
Definition after (rs : list report) (self : t) : t :=
  foldl (λ self r, snd (call r self)) self rs.

(** [get_tbl_count]: [fetchone()] gives the first row of the answer, or
    [None] when there is none; [not result] holds for [None] and for an
    empty tuple. *)
Definition get_tbl_count (tbl_name : string) : M t cell :=
  rows <~ execute ("SELECT format('{:,}', count(" +:+ "*)) FROM "
                     +:+ py_repr tbl_name +:+ ";") [] ;;
  match head rows with
  | None | Some [] => raise ErrNoResults
  | Some (c :: _) => ret c
  end.

(** What the program writes to the terminal, in order: a line given to
    [print], or a table given to [console.print]. *)
Inductive output : Type :=
  | Print (line : string)
  | ConsolePrint (tb : Table.t).

(** A session together with the terminal output so far. *)
Definition world : Type := t * list output.

(** A method of [self] that prints nothing. *)
Definition lift {A} (m : M t A) : M world A :=
  λ w, let '(res, self') := m w.1 in (res, (self', w.2)).

Definition emit (o : output) : M world unit :=
  λ w, (inr tt, (w.1, w.2 ++ [o])).

Definition show_count : M world unit :=
  w <~ get ;;
  for_ (files w.1) (λ '(file_name, file),
    result <~ lift (get_tbl_count file) ;;
    emit (Print ("Total " +:+ capitalize file_name +:+ " Rows: "
                   +:+ str result))).

(** [analyze]: the arguments left out in the source take their defaults,
    [limit=5], [month_cutoff=6], [order="DESC"], [limit=3]. *)
Definition analyze : M world unit :=
  show_count ;;;
  tb <~ lift (get_stations 5) ;; emit (ConsolePrint tb) ;;;
  tb <~ lift (get_distances 5) ;; emit (ConsolePrint tb) ;;;
  tb <~ lift (get_busiest_by_month 6) ;; emit (ConsolePrint tb) ;;;
  tb <~ lift (get_top_n_stations_in_period 2 6 8) ;;
  emit (ConsolePrint tb) ;;;
  tb <~ lift (get_station_pairs "DESC" 3) ;; emit (ConsolePrint tb).

(** The script: [Analyzer(mode="local").analyze()].  When the constructor
    raises, [analyze] is not called. *)
Definition main : (exn + unit) * world :=
  match init "local" with
  | (inl e, self) => (inl e, (self, []))
  | (inr _, self) => analyze (self, [])
  end.

(** The statements of the methods above, and the order [analyze] and the
    script go through them. *)

(** The statement [create_tbl] executes for [tbl], defined by [subqry]. *)
Definition create_stmt (tbl subqry : string) : stmt :=
  ("
        CREATE TABLE " +:+ tbl +:+ " AS (" +:+ subqry +:+ ")
        ", []).


(** The tables [load_local_data] creates, in its order. *)
Definition local_tables : list string :=
  [SVCS_TBL_NAME; SVCS_BY_MONTH_TBL_NAME; STAT_TBL_NAME; DIST_TBL_NAME;
   DIST_LNG_TBL_NAME].


(** A step of a straight-line run: the statement handed to the engine, and
    what the program makes of the engine's answer, either an exception or
    going on, after writing an output if the step writes one. *)
Record step : Type := mk_step {
  step_stmt : stmt;
  step_react : string + list (list cell) → exn + option output
}.

(** Going through [steps] in order, on a connection that has executed [c]
    and a terminal that shows [out]: each statement is handed to the engine
    once, and the first step that ends in an exception ends the run. *)
Fixpoint run_steps (steps : list step) (c : list stmt) (out : list output)
  : (exn + unit) * (list stmt * list output) :=
  match steps with
  | [] => (inr tt, (c, out))
  | st :: rest =>
      match step_react st (engine c (step_stmt st)) with
      | inl e => (inl e, (c ++ [step_stmt st], out))
      | inr o => run_steps rest (c ++ [step_stmt st]) (out ++ option_list o)
      end
  end.

(** Creating [tbl]: the engine's error is raised, its rows are not looked
    at, nothing is written. *)
Definition create_step (tbl subqry : string) : step :=
  mk_step (create_stmt tbl subqry)
    (λ answer, match answer with
               | inl msg => inl (EngineError msg)
               | inr _ => inr None
               end).



(** The steps of [load_local_data], of [show_count] and of [analyze] (on a
    session that is not in remote mode). *)
Definition load_steps (self : t) : list step :=
  (λ tbl, create_step tbl (default "" (subqueries self !! tbl)))
    <$> local_tables.




End WithEngine.

End Analyzer.

(** ** The query of [get_top_n_stations_in_period], read as a function

    The SQL text of the report is part of the program; what it computes is
    given here clause by clause, over the rows of [services_per_month].
    Fields are taken as not NULL (a row whose month is NULL does not pass
    [BETWEEN]). *)
Module TopN.

Section WithStations.

Context {station_name : Type}.

(** A row of [services_per_month]. *)
Record row : Type := mk_row {
  month : Z;
  station : station_name;
  num_services : Z
}.

(** [strftime(make_date(2023, month, 1), '%B')]; [make_date] raises
    for a month outside 1..12, which is [None] here. *)
Definition month_name (m : Z) : option string :=
  if decide (1 ≤ m)%Z
  then ["January"; "February"; "March"; "April"; "May"; "June"; "July";
        "August"; "September"; "October"; "November"; "December"]
         !! Z.to_nat (m - 1)
  else None.

(** [ORDER BY num_services DESC] within a partition. *)
Fixpoint insert_desc (r : row) (l : list row) : list row :=
  match l with
  | [] => [r]
  | x :: l' =>
      if decide (num_services x < num_services r)%Z
      then r :: x :: l'
      else x :: insert_desc r l'
  end.

Definition sort_desc (l : list row) : list row := foldr insert_desc [] l.

(** Position (from 0) of the first row of [l] whose [num_services] is
    [k]: the first peer of a row with that value. *)
Fixpoint first_peer (k : Z) (l : list row) : nat :=
  match l with
  | [] => 0
  | x :: l' => if decide (num_services x = k) then 0 else S (first_peer k l')
  end.

(** [rank() OVER (PARTITION BY month ORDER BY num_services DESC)]: the
    row number, from 1, of the row's first peer in its ordered
    partition. *)
Definition rank (rows : list row) (r : row) : Z :=
  let partition := filter (λ x, month x = month r) rows in
  Z.of_nat (S (first_peer (num_services r) (sort_desc partition))).

(** Descending order: each row has at least the services of every row
    after it. *)
Definition descending (l : list row) : Prop :=
  StronglySorted (λ a b, num_services b ≤ num_services a)%Z l.

(** A row of the inner [SELECT]. *)
Record ranked : Type := mk_ranked {
  r_month : Z;
  r_month_name : string;
  r_rank : Z;
  r_station : station_name;
  r_num_services : Z
}.

(** The inner [SELECT ... FROM services_per_month WHERE month BETWEEN $1
    AND $2]; [None] when the engine raises. *)
Definition inner (start end_ : Z) (tbl : list row) : option (list ranked) :=
  let rows := filter (λ r, start ≤ month r ∧ month r ≤ end_)%Z tbl in
  mapM (λ r, name ← month_name (month r);
             Some (mk_ranked (month r) name (rank rows r)
                             (station r) (num_services r)))
       rows.

(** A row of the outer [SELECT]: month, month name, [array_agg(station)]. *)
Definition result_row : Type := Z * string * list station_name.

Definition by_month (a b : result_row) : Prop := (a.1.1 ≤ b.1.1)%Z.

Local Instance by_month_dec a b : Decision (by_month a b).
Proof. unfold by_month. apply _. Defined.

(** The outer [SELECT ... WHERE rank <= $3 GROUP BY ALL ORDER BY month]:
    the groups are the distinct (month, month_name) pairs.  The order of the
    stations inside one [array_agg] list is the engine's choice; they are
    given here in the order of the table, and only membership in a list is
    made use of. *)
Definition outer (n : Z) (rows : list ranked) : list result_row :=
  let kept := filter (λ x, r_rank x ≤ n)%Z rows in
  let key x := (r_month x, r_month_name x) in
  let groups := remove_dups (map key kept) in
  merge_sort by_month
    (map (λ g, (g, map r_station (filter (λ x, key x = g) kept))) groups).

(** The whole query, with [$1 = start], [$2 = end], [$3 = n] as
    [get_top_n_stations_in_period] binds them. *)
Definition query (n start end_ : Z) (tbl : list row)
  : option (list result_row) :=
  outer n <$> inner start end_ tbl.

(** Standard competition ranking, in the spec's words: a row's rank is
    one more than the number of rows of its month with strictly more
    services, so that ties share a rank and leave a gap after it. *)
Definition competition_rank (tbl : list row) (r : row) : Z :=
  1 + Z.of_nat (length (filter
        (λ x, month x = month r ∧ num_services r < num_services x)%Z tbl)).

(** Station [s] appears in the result row of month [m]. *)
Definition listed (out : list result_row) (m : Z) (s : station_name)
  : Prop :=
  ∃ name stations, (m, name, stations) ∈ out ∧ s ∈ stations.

End WithStations.

Arguments row : clear implicits.
Arguments ranked : clear implicits.
Arguments result_row : clear implicits.

End TopN.

(** ** Sample objects *)

(** A builder with two declared columns, used in the examples below. *)
Definition two_columns : TableMaker.t (cell := Z) :=
  snd ((TableMaker.with_column "a" ;;; TableMaker.with_column "b")
         (TableMaker.new "T")).

(** A builder on which [build] has been called once. *)
Definition built_once : TableMaker.t (cell := Z) :=
  snd (TableMaker.chain pretty "T"
         [TableMaker.WithColumn "a"; TableMaker.WithColumn "b";
          TableMaker.WithRows [[1; 2]%Z]]).

(** An engine that answers every statement with no rows, and one that
    answers every statement with a single row of three integers. *)
Definition no_rows_engine
  : list Analyzer.stmt → Analyzer.stmt → string + list (list Z) :=
  λ _ _, inr [].

Definition one_row_engine
  : list Analyzer.stmt → Analyzer.stmt → string + list (list Z) :=
  λ _ _, inr [[1; 2; 3]%Z].

(** A [services_per_month] table in which three stations tie for the most
    services in June. *)
Definition june_tie : list (TopN.row string) :=
  [TopN.mk_row 6 "Utrecht" 10; TopN.mk_row 6 "Zwolle" 10;
   TopN.mk_row 7 "Utrecht" 3; TopN.mk_row 6 "Leiden" 10;
   TopN.mk_row 6 "Delft" 9; TopN.mk_row 7 "Zwolle" 5;
   TopN.mk_row 7 "Leiden" 4; TopN.mk_row 8 "Delft" 7;
   TopN.mk_row 9 "Delft" 8]%Z.

(** An engine that raises on every statement. *)
Definition failing_engine
  : list Analyzer.stmt → Analyzer.stmt → string + list (list Z) :=
  λ _ _, inl "IO Error".

(** A session in remote mode whose registry has been emptied. *)
Definition bare_remote_session : Analyzer.t :=
  Analyzer.mk "remote" [] SVCS_CSV_URL STAT_CSV_URL DIST_CSV_URL [] ∅.

(** What the query returns on [june_tie] for months 6 to 8, with [n = 1]
    and with [n = 2]. *)
Definition june_tie_top1 : list (TopN.result_row string) :=
  [(6, "June", ["Utrecht"; "Zwolle"; "Leiden"]); (7, "July", ["Zwolle"]);
   (8, "August", ["Delft"])]%Z.

Definition june_tie_top2 : list (TopN.result_row string) :=
  [(6, "June", ["Utrecht"; "Zwolle"; "Leiden"]);
   (7, "July", ["Zwolle"; "Leiden"]); (8, "August", ["Delft"])]%Z.

(** * Properties *)

(** ** The monad and its loops *)

Section MonadFacts.

Context {S : Type}.

Lemma bind_ok {A B} (m : M S A) (k : A → M S B) s a s' :
  m s = (inr a, s') → bind m k s = k a s'.
Proof. intros H. unfold bind. by rewrite H. Qed.

Lemma bind_raise {A B} (m : M S A) (k : A → M S B) s e s' :
  m s = (inl e, s') → bind m k s = (inl e, s').
Proof. intros H. unfold bind. by rewrite H. Qed.

(** A loop whose body only updates the object runs to its end. *)
Lemma for_modify {A} (f : A → S → S) (l : list A) s :
  for_ l (λ x, modify (f x)) s = (inr tt, foldl (λ s x, f x s) s l).
Proof.
  revert s. induction l as [|x l IH]; intros s; [done|].
  cbn [for_ foldl]. by erewrite bind_ok; [apply IH|].
Qed.

End MonadFacts.

(** ** [TableMaker] *)

Section TableMakerFacts.

Context {cell : Type} (str : cell → string).

Implicit Types (tm : TableMaker.t (cell := cell)) (rs : list (list cell)).

(** Rows that all have the declared width are all appended. *)
Lemma with_rows_ok tm rs :
  Forall (λ row, length row = length (TableMaker.cols tm)) rs →
  TableMaker.with_rows rs tm =
    (inr tt, TableMaker.mk (TableMaker.table tm) (TableMaker.cols tm)
                           (TableMaker.rows tm ++ rs)).
Proof.
  intros Hall. revert tm Hall.
  induction rs as [|row rs IH]; intros [tb cs rws] Hall.
  - cbn. by rewrite app_nil_r.
  - apply Forall_cons in Hall as [Hrow Hall]. cbn in Hrow.
    unfold TableMaker.with_rows in *. cbn [for_].
    erewrite bind_ok.
    2:{ unfold bind, get. cbn. rewrite Hrow, Nat.eqb_refl. cbn. reflexivity. }
    rewrite IH by (cbn; done). cbn. by rewrite <- app_assoc.
Qed.

(** The first row of another width stops the loop: the rows before it have
    been appended, the error names its width and the declared one. *)
Lemma with_rows_mismatch tm pre bad post :
  Forall (λ row, length row = length (TableMaker.cols tm)) pre →
  length bad ≠ length (TableMaker.cols tm) →
  TableMaker.with_rows (pre ++ bad :: post) tm =
    (inl (Exception (TableMaker.mismatch_msg
                       (length bad) (length (TableMaker.cols tm)))),
     TableMaker.mk (TableMaker.table tm) (TableMaker.cols tm)
                   (TableMaker.rows tm ++ pre)).
Proof.
  intros Hall Hbad. revert tm Hall Hbad.
  induction pre as [|row pre IH]; intros [tb cs rws] Hall Hbad.
  - cbn in Hbad. unfold TableMaker.with_rows. cbn [app for_].
    apply Nat.eqb_neq in Hbad.
    erewrite bind_raise.
    2:{ unfold bind, get. cbn. rewrite Hbad. cbn. reflexivity. }
    cbn. by rewrite app_nil_r.
  - apply Forall_cons in Hall as [Hrow Hall]. cbn in Hrow, Hbad.
    unfold TableMaker.with_rows in *. rewrite <- app_comm_cons. cbn [for_].
    erewrite bind_ok.
    2:{ unfold bind, get. cbn. rewrite Hrow, Nat.eqb_refl. cbn. reflexivity. }
    rewrite IH by (cbn; done). cbn. by rewrite <- app_assoc.
Qed.

(** Any row set with a row of another width splits at the first such row. *)
Lemma first_mismatch (n : nat) rs :
  ¬ Forall (λ row, length row = n) rs →
  ∃ pre bad post,
    rs = pre ++ bad :: post ∧ Forall (λ row, length row = n) pre ∧
    length bad ≠ n.
Proof.
  induction rs as [|row rs IH]; intros Hnot.
  - destruct Hnot. constructor.
  - destruct (decide (length row = n)) as [Heq|Hne].
    + destruct IH as (pre & bad & post & -> & Hpre & Hbad).
      { intros Hall. apply Hnot. by constructor. }
      exists (row :: pre), bad, post. repeat split; [by constructor|done].
    + exists [], row, rs. repeat split; [constructor|done].
Qed.

Lemma add_rows_spec (gens : list (list cell)) tb :
  TableMaker.add_rows str gens tb =
    (map (λ _, []) gens,
     Table.mk (Table.title tb) (Table.columns tb)
              (Table.rows tb ++ map (map str) gens)).
Proof.
  revert tb. induction gens as [|g gens IH]; intros [ti cs rws]; cbn.
  - by rewrite app_nil_r.
  - rewrite IH. cbn. by rewrite <- app_assoc.
Qed.

Lemma add_columns_spec (names : list string) tm :
  foldl (λ self col,
           TableMaker.mk (Table.add_column col (TableMaker.table self))
                         (TableMaker.cols self) (TableMaker.rows self))
        tm names =
    TableMaker.mk
      (Table.mk (Table.title (TableMaker.table tm))
                (Table.columns (TableMaker.table tm) ++ names)
                (Table.rows (TableMaker.table tm)))
      (TableMaker.cols tm) (TableMaker.rows tm).
Proof.
  revert tm. induction names as [|c names IH]; intros [[ti cs rws] cl rw].
  - cbn. by rewrite app_nil_r.
  - cbn [foldl]. rewrite IH. cbn. by rewrite <- app_assoc.
Qed.

(** [build] never raises: it hands every declared column and every stored
    generator to the table, and leaves the generators exhausted. *)
Lemma build_spec tm :
  TableMaker.build str tm =
    let tb :=
      Table.mk (Table.title (TableMaker.table tm))
               (Table.columns (TableMaker.table tm) ++ TableMaker.cols tm)
               (Table.rows (TableMaker.table tm)
                  ++ map (map str) (TableMaker.rows tm)) in
    (inr tb,
     TableMaker.mk tb (TableMaker.cols tm)
                   (map (λ _, []) (TableMaker.rows tm))).
Proof.
  unfold TableMaker.build.
  erewrite bind_ok by reflexivity.
  erewrite bind_ok by apply for_modify.
  rewrite add_columns_spec. unfold bind, modify, get, ret. cbn.
  rewrite add_rows_spec. by destruct tm as [[ti cs rws] cl rw].
Qed.

Lemma with_columns_spec (names : list string) tm :
  for_ names TableMaker.with_column tm =
    (inr tt, TableMaker.mk (TableMaker.table tm)
                           (TableMaker.cols tm ++ names)
                           (TableMaker.rows tm)).
Proof.
  unfold TableMaker.with_column. rewrite for_modify.
  f_equal. revert tm. induction names as [|c names IH]; intros [tb cl rw].
  - cbn. by rewrite app_nil_r.
  - cbn [foldl]. rewrite IH. cbn. by rewrite <- app_assoc.
Qed.

(** Several [with_rows] calls in a row, on a builder whose columns no
    longer change. *)
Lemma with_rows_calls_ok tm (rss : list (list (list cell))) :
  Forall (Forall (λ row, length row = length (TableMaker.cols tm))) rss →
  for_ (TableMaker.WithRows <$> rss) TableMaker.call tm =
    (inr tt, TableMaker.mk (TableMaker.table tm) (TableMaker.cols tm)
                           (TableMaker.rows tm ++ concat rss)).
Proof.
  intros Hall. revert tm Hall.
  induction rss as [|rs rss IH]; intros [tb cl rw] Hall.
  - cbn. by rewrite app_nil_r.
  - apply Forall_cons in Hall as [Hrs Hall].
    cbn [fmap list_fmap for_ TableMaker.call].
    erewrite bind_ok by (by apply with_rows_ok).
    cbn. rewrite IH by done. cbn. by rewrite app_assoc.
Qed.

Lemma with_rows_calls_mismatch tm (rss : list (list (list cell))) :
  ¬ Forall (Forall (λ row, length row = length (TableMaker.cols tm))) rss →
  ∃ got tm',
    for_ (TableMaker.WithRows <$> rss) TableMaker.call tm =
      (inl (Exception (TableMaker.mismatch_msg
                         got (length (TableMaker.cols tm)))), tm').
Proof.
  revert tm. induction rss as [|rs rss IH]; intros [tb cl rw] Hnot.
  - destruct Hnot. constructor.
  - cbn [fmap list_fmap for_ TableMaker.call].
    destruct (decide (Forall (λ row, length row = length cl) rs))
      as [Hrs|Hrs].
    + erewrite bind_ok by (by apply with_rows_ok).
      apply (IH (TableMaker.mk tb cl (rw ++ rs))).
      intros Hall. apply Hnot. by constructor.
    + apply first_mismatch in Hrs as (pre & bad & post & -> & Hpre & Hbad).
      eexists _, _. erewrite bind_raise; [reflexivity|].
      by apply with_rows_mismatch.
Qed.

End TableMakerFacts.

Lemma for_app {S A} (l1 l2 : list A) (body : A → M S unit) s :
  for_ (l1 ++ l2) body s = (for_ l1 body ;;; for_ l2 body) s.
Proof.
  revert s. induction l1 as [|x l1 IH]; intros s; [done|].
  cbn [app for_]. unfold bind.
  destruct (body x s) as [[e|[]] s']; [done|].
  rewrite IH. reflexivity.
Qed.

Lemma for_with_column_calls {cell} (names : list string)
    (tm : TableMaker.t (cell := cell)) :
  for_ (TableMaker.WithColumn <$> names) TableMaker.call tm =
    for_ names TableMaker.with_column tm.
Proof.
  revert tm. induction names as [|c names IH]; intros tm; [done|].
  cbn [fmap list_fmap for_ TableMaker.call]. unfold bind.
  destruct (TableMaker.with_column c tm) as [[e|[]] tm']; [done|]. apply IH.
Qed.

(** C2, as stated, fails: [with_rows] stops at the row of length 3 with the
    mismatch error, but the row in front of it has already been appended, so
    the builder is not as it was before the call. *)
Lemma C2_counterexample :
  let rs := [[1; 2]; [1; 2; 3]]%Z in
  Exists (λ row, length row ≠ length (TableMaker.cols two_columns)) rs ∧
  fst (TableMaker.with_rows rs two_columns) =
    inl (Exception "Mismatched column count: got 3, expected 2") ∧
  TableMaker.rows (snd (TableMaker.with_rows rs two_columns)) = [[1; 2]%Z] ∧
  snd (TableMaker.with_rows rs two_columns) ≠ two_columns.
Proof.
  cbn zeta. split; [|split; [|split]].
  - apply Exists_cons_tl, Exists_cons_hd. cbn. lia.
  - vm_compute. reflexivity.
  - vm_compute. reflexivity.
  - vm_compute. discriminate.
Qed.

(** C2, amended: if some row of the set passed to [with_rows] has a length
    other than the number of declared columns, the call raises the mismatch
    error carrying the length of the first such row and the column count;
    the rows of the set in front of that row have been appended to the
    builder's rows, and no row from it on has. *)
Theorem C2_with_rows_stops_at_first_mismatch {cell}
    (tm : TableMaker.t (cell := cell)) (rs : list (list cell)) :
  Exists (λ row, length row ≠ length (TableMaker.cols tm)) rs →
  ∃ pre bad post,
    rs = pre ++ bad :: post ∧
    Forall (λ row, length row = length (TableMaker.cols tm)) pre ∧
    length bad ≠ length (TableMaker.cols tm) ∧
    TableMaker.with_rows rs tm =
      (inl (Exception (TableMaker.mismatch_msg
                         (length bad) (length (TableMaker.cols tm)))),
       TableMaker.mk (TableMaker.table tm) (TableMaker.cols tm)
                     (TableMaker.rows tm ++ pre)).
Proof.
  intros Hex.
  destruct (first_mismatch (length (TableMaker.cols tm)) rs)
    as (pre & bad & post & -> & Hpre & Hbad).
  { intros Hall. apply Exists_exists in Hex as (row & Hin & Hne).
    rewrite Forall_forall in Hall. by apply Hne, Hall. }
  exists pre, bad, post. repeat split; [done..|].
  by apply with_rows_mismatch.
Qed.

Lemma C2_with_rows_stops_at_first_mismatch_witness :
  ∃ pre bad post,
    [[1; 2]; [1; 2; 3]; [4; 5]]%Z = pre ++ bad :: post ∧
    Forall (λ row, length row = length (TableMaker.cols two_columns)) pre ∧
    length bad ≠ length (TableMaker.cols two_columns) ∧
    TableMaker.with_rows [[1; 2]; [1; 2; 3]; [4; 5]]%Z two_columns =
      (inl (Exception (TableMaker.mismatch_msg
                         (length bad) (length (TableMaker.cols two_columns)))),
       TableMaker.mk (TableMaker.table two_columns)
                     (TableMaker.cols two_columns)
                     (TableMaker.rows two_columns ++ pre)).
Proof.
  apply (C2_with_rows_stops_at_first_mismatch two_columns).
  apply Exists_cons_tl, Exists_cons_hd. simpl. lia.
Defined.

(** C4, as stated, fails: a column declared after [with_rows] is not
    checked against the stored rows, and [build] checks nothing; the table
    below has two columns and a row of one cell, and no error was raised. *)
Lemma C4_counterexample :
  ∃ tb,
    fst (TableMaker.chain pretty "T"
           [TableMaker.WithColumn "a"; TableMaker.WithRows [[1%Z]];
            TableMaker.WithColumn "b"]) = inr tb ∧
    Table.columns tb = ["a"; "b"] ∧ Table.rows tb = [["1"]] ∧
    ¬ Forall (λ row, length row = length (Table.columns tb)) (Table.rows tb).
Proof.
  eexists. split; [vm_compute; reflexivity|]. cbn. repeat split.
  intros H. apply Forall_cons in H as [H _]. cbn in H. lia.
Qed.

(** C4, amended: [with_rows] checks each row against the number of columns
    declared so far, and [build] checks nothing.  So when every [with_column]
    call comes before every [with_rows] call, as in all report methods,
    [build] returns a table whose rows all have as many cells as the table
    has columns, provided every row passed had that length; otherwise a
    [with_rows] call raises the mismatch error and [build] is not reached. *)
Theorem C4_columns_before_rows {cell} (str : cell → string) (title : string)
    (names : list string) (rss : list (list (list cell))) :
  let res := fst (TableMaker.chain str title
                    ((TableMaker.WithColumn <$> names)
                       ++ (TableMaker.WithRows <$> rss))) in
  (Forall (Forall (λ row, length row = length names)) rss →
   ∃ tb, res = inr tb ∧ Table.columns tb = names ∧
         Table.rows tb = map (map str) (concat rss) ∧
         Forall (λ row, length row = length (Table.columns tb))
                (Table.rows tb)) ∧
  (¬ Forall (Forall (λ row, length row = length names)) rss →
   ∃ got, res = inl (Exception (TableMaker.mismatch_msg got (length names)))).
Proof.
  cbn zeta. unfold TableMaker.chain.
  set (tm1 := TableMaker.mk (cell := cell) (Table.new title) names []).
  assert (Hcols : for_ (TableMaker.WithColumn <$> names) TableMaker.call
                    (TableMaker.new title) = (inr tt, tm1)).
  { rewrite for_with_column_calls, with_columns_spec. done. }
  split; intros Hall.
  - erewrite bind_ok.
    2:{ rewrite for_app. erewrite bind_ok by exact Hcols.
        by apply with_rows_calls_ok. }
    rewrite build_spec. cbn. eexists. split; [reflexivity|]. cbn.
    repeat split.
    apply Forall_forall. intros cells Hin.
    apply list_elem_of_fmap in Hin as (row & -> & Hin).
    apply list_elem_of_In, in_concat in Hin as (rs & Hrs & Hrow).
    apply list_elem_of_In in Hrs, Hrow.
    rewrite length_map. rewrite Forall_forall in Hall.
    specialize (Hall rs Hrs). rewrite Forall_forall in Hall. by apply Hall.
  - destruct (with_rows_calls_mismatch tm1 rss Hall) as (got & tm' & Hrun).
    exists got. erewrite bind_raise; [reflexivity|].
    rewrite for_app. erewrite bind_ok by exact Hcols. exact Hrun.
Qed.

Lemma C4_columns_before_rows_witness :
  (∃ tb,
     fst (TableMaker.chain pretty "T"
            ((TableMaker.WithColumn <$> ["id"; "name"])
               ++ (TableMaker.WithRows <$> [[[1; 10]; [2; 20]]%Z]))) = inr tb ∧
     Table.columns tb = ["id"; "name"] ∧
     Table.rows tb = map (map pretty) (concat [[[1; 10]; [2; 20]]%Z]) ∧
     Forall (λ row, length row = length (Table.columns tb)) (Table.rows tb)) ∧
  (∃ got,
     fst (TableMaker.chain pretty "T"
            ((TableMaker.WithColumn <$> ["a"; "b"])
               ++ (TableMaker.WithRows <$> [[[1; 2; 3]%Z]]))) =
       inl (Exception (TableMaker.mismatch_msg got 2))).
Proof.
  split.
  - apply (C4_columns_before_rows pretty "T" ["id"; "name"]
             [[[1; 10]; [2; 20]]%Z]).
    repeat constructor.
  - apply (C4_columns_before_rows pretty "T" ["a"; "b"] [[[1; 2; 3]%Z]]).
    intros H. apply Forall_cons in H as [H _].
    apply Forall_cons in H as [H _]. simpl in H. lia.
Defined.

(** C7, as stated, fails: on a builder that has built its table, all three
    methods still succeed, and the second [build] returns a table that has
    every column twice and a further row without cells. *)
Lemma C7_counterexample :
  fst (TableMaker.chain pretty "T"
         [TableMaker.WithColumn "a"; TableMaker.WithColumn "b";
          TableMaker.WithRows [[1; 2]%Z]]) =
    inr (Table.mk "T" ["a"; "b"] [["1"; "2"]]) ∧
  fst (TableMaker.with_column "c" built_once) = inr tt ∧
  fst (TableMaker.with_rows [[3; 4]%Z] built_once) = inr tt ∧
  fst (TableMaker.build pretty built_once) =
    inr (Table.mk "T" ["a"; "b"; "a"; "b"] [["1"; "2"]; []]).
Proof. repeat split; vm_compute; reflexivity. Qed.

(** C7, amended: [TableMaker] has no single-use guard.  [build] always
    succeeds and returns the builder's own table object; afterwards
    [with_column] still succeeds, [with_rows] still succeeds on rows of the
    declared width, and a second [build] succeeds and returns that same
    table with every declared column added once more and, for each row
    stored before the first [build], one more row without cells (the first
    [build] has exhausted the row generators). *)
Theorem C7_builder_stays_usable {cell} (str : cell → string)
    (tm : TableMaker.t (cell := cell)) :
  ∃ tb1 tm1,
    TableMaker.build str tm = (inr tb1, tm1) ∧
    TableMaker.table tm1 = tb1 ∧
    (∀ name, fst (TableMaker.with_column name tm1) = inr tt) ∧
    (∀ rs, Forall (λ row, length row = length (TableMaker.cols tm)) rs →
           fst (TableMaker.with_rows rs tm1) = inr tt) ∧
    fst (TableMaker.build str tm1) =
      inr (Table.mk (Table.title tb1)
                    (Table.columns tb1 ++ TableMaker.cols tm)
                    (Table.rows tb1 ++ map (λ _, []) (TableMaker.rows tm))).
Proof.
  rewrite build_spec. cbn zeta. eexists _, _. split; [reflexivity|].
  split; [reflexivity|]. split; [done|]. split.
  - intros rs Hall. by rewrite with_rows_ok.
  - rewrite build_spec. cbn. by rewrite map_map.
Qed.

(** ** [Analyzer] *)

Section AnalyzerFacts.

Context {cell : Type} (str : cell → string).
Context (engine : list Analyzer.stmt → Analyzer.stmt → string + list (list cell)).

Implicit Types (self : Analyzer.t) (r : Analyzer.report).

(** Each method body is an instance of the common shape. *)
Lemma call_shape r self :
  Analyzer.call str engine r self = Analyzer.shape str engine r self.
Proof. destruct r; reflexivity. Qed.

Lemma get_subquery_state tbl self :
  snd (Analyzer.get_subquery tbl self) = self.
Proof.
  unfold Analyzer.get_subquery, bind, get.
  by destruct (Analyzer.subqueries self !! tbl) as [[|]|].
Qed.

(** Composing the query text reads [self] and changes nothing. *)
Lemma compose_state r self : snd (Analyzer.compose r self) = self.
Proof.
  unfold Analyzer.compose. destruct (Analyzer.cte_table r) as [tbl|]; [|done].
  unfold bind at 1, get. destruct (Analyzer.is_remote self); [|done].
  unfold Analyzer.add_cte, bind.
  pose proof (get_subquery_state tbl self) as Hs.
  by destruct (Analyzer.get_subquery tbl self) as [[e|q] s'].
Qed.

Lemma table_of_ok title columns result tb :
  TableMaker.table_of str title columns result = inr tb →
  Table.columns tb = columns ∧ Table.rows tb = map (map str) result.
Proof.
  unfold TableMaker.table_of. erewrite bind_ok by apply with_columns_spec. cbn.
  destruct (decide (Forall (λ row, length row = length columns) result))
    as [Hall|Hnot].
  - erewrite bind_ok by (by apply with_rows_ok).
    rewrite build_spec. cbn. by intros [= <-].
  - apply first_mismatch in Hnot as (pre & bad & post & -> & Hpre & Hbad).
    erewrite bind_raise by (by apply with_rows_mismatch). done.
Qed.

(** One run of a report method, case by case. *)
Lemma call_run r self :
  Analyzer.call str engine r self =
    match fst (Analyzer.compose r self) with
    | inl e => (inl e, self)
    | inr qry =>
        let self' :=
          Analyzer.set_con
            (Analyzer.con self ++ [(qry, Analyzer.arguments r)]) self in
        match engine (Analyzer.con self) (qry, Analyzer.arguments r) with
        | inl e => (inl (EngineError e), self')
        | inr [] => (inl ErrNoResults, self')
        | inr result =>
            (TableMaker.table_of str (Analyzer.title_of r)
               (Analyzer.columns_of r) result,
             self')
        end
    end.
Proof.
  rewrite call_shape. unfold Analyzer.shape.
  pose proof (compose_state r self) as Hs. unfold bind at 1.
  destruct (Analyzer.compose r self) as [[e|qry] s']; cbn in Hs; subst s';
    [done|].
  cbn [fst]. unfold bind at 1, Analyzer.execute at 1.
  destruct (engine (Analyzer.con self) (qry, Analyzer.arguments r))
    as [e|[|row result]]; reflexivity.
Qed.

(** What a report method hands to the engine: at most one statement, the
    composed text with the method's parameter values. *)
Lemma executed_call r self :
  Analyzer.executed (Analyzer.call str engine r) self =
    match fst (Analyzer.compose r self) with
    | inl _ => []
    | inr qry => [(qry, Analyzer.arguments r)]
    end.
Proof.
  unfold Analyzer.executed. rewrite call_run.
  destruct (fst (Analyzer.compose r self)) as [e|qry]; cbn [snd].
  - by rewrite drop_all.
  - destruct (engine (Analyzer.con self) (qry, Analyzer.arguments r))
      as [e|[|row result]]; cbn; by rewrite drop_app_length.
Qed.

(** Outside remote mode the composed text is the method's own text. *)
Lemma compose_not_remote r self :
  Analyzer.is_remote self = false →
  Analyzer.compose r self = (inr (Analyzer.base_query r), self).
Proof.
  intros Hmode. unfold Analyzer.compose.
  destruct (Analyzer.cte_table r); [|done].
  unfold bind, get. by rewrite Hmode.
Qed.

(** In remote mode, a method that asks [add_cte] for a registered table
    hands over its own text behind the [WITH] clause of that one table. *)
Lemma executed_remote r self tbl subqry :
  Analyzer.is_remote self = true →
  Analyzer.cte_table r = Some tbl →
  Analyzer.subqueries self !! tbl = Some subqry → subqry ≠ "" →
  Analyzer.executed (Analyzer.call str engine r) self =
    [(Analyzer.cte_text (Analyzer.base_query r) tbl subqry,
      Analyzer.arguments r)].
Proof.
  intros Hmode Htbl Hsub Hne. rewrite executed_call.
  unfold Analyzer.compose. rewrite Htbl. unfold bind at 1, get.
  rewrite Hmode. unfold Analyzer.add_cte, Analyzer.get_subquery, bind, get.
  rewrite Hsub. by destruct subqry.
Qed.

End AnalyzerFacts.

(** C1 (the code departs from the claim): in remote mode [get_station_pairs]
    hands its own text to the engine, with no [WITH] clause although the text
    reads from [distances_long] and [stations]; and the text [get_distances]
    hands over defines [distances_long] by a query that reads [distances],
    for which the text holds no [WITH] clause. *)
Theorem C1_remote_queries_not_self_contained {cell} (str : cell → string)
    (engine : list Analyzer.stmt → Analyzer.stmt → string + list (list cell)) :
  let self := snd (Analyzer.init engine "remote") in
  Analyzer.is_remote self = true ∧
  Analyzer.executed
      (Analyzer.call str engine (Analyzer.GetStationPairs "DESC" 3)) self =
    [(Analyzer.get_station_pairs_qry "DESC", [3%Z])] ∧
  occurs "WITH" (Analyzer.get_station_pairs_qry "DESC") = false ∧
  occurs "FROM distances_long" (Analyzer.get_station_pairs_qry "DESC") = true ∧
  ∃ qry,
    Analyzer.executed
        (Analyzer.call str engine (Analyzer.GetDistances 5)) self =
      [(qry, [5%Z])] ∧
    occurs "WITH distances_long AS (" qry = true ∧
    occurs "UNPIVOT distances" qry = true ∧
    occurs "WITH distances AS (" qry = false.
Proof.
  cbn zeta. split; [reflexivity|]. split; [|split; [|split]].
  - rewrite executed_call. reflexivity.
  - vm_compute. reflexivity.
  - vm_compute. reflexivity.
  - eexists. split; [rewrite executed_call; vm_compute; reflexivity|].
    repeat split; vm_compute; reflexivity.
Qed.

(** C3: whichever report method is called, if the engine answers the
    statement the method executes with no rows, the method raises
    [ErrNoResults]; and a table a report method returns has at least one
    row. *)
Theorem C3_no_rows_raises_ErrNoResults {cell} (str : cell → string)
    (engine : list Analyzer.stmt → Analyzer.stmt → string + list (list cell))
    (r : Analyzer.report) (self : Analyzer.t) :
  (∀ s, Analyzer.executed (Analyzer.call str engine r) self = [s] →
        engine (Analyzer.con self) s = inr [] →
        fst (Analyzer.call str engine r self) = inl ErrNoResults) ∧
  (∀ tb, fst (Analyzer.call str engine r self) = inr tb →
         Table.rows tb ≠ []).
Proof.
  split.
  - intros s Hexec Hnone. rewrite executed_call in Hexec. rewrite call_run.
    destruct (fst (Analyzer.compose r self)) as [e|qry]; [done|].
    injection Hexec as <-. cbn zeta. by rewrite Hnone.
  - intros tb. rewrite call_run.
    destruct (fst (Analyzer.compose r self)) as [e|qry]; [done|]. cbn zeta.
    destruct (engine (Analyzer.con self) (qry, Analyzer.arguments r))
      as [e|[|row result]]; [done..|].
    cbn [fst]. intros Htb. apply table_of_ok in Htb as [_ ->]. done.
Qed.

Lemma C3_no_rows_raises_ErrNoResults_witness :
  fst (Analyzer.call pretty no_rows_engine (Analyzer.GetStationPairs "DESC" 3)
         (snd (Analyzer.init no_rows_engine "local"))) = inl ErrNoResults ∧
  Table.rows (Table.mk "Furthest Station Distances"
                ["station1"; "station2"; "distance"] [["1"; "2"; "3"]]) ≠ [].
Proof.
  split.
  - apply (C3_no_rows_raises_ErrNoResults pretty no_rows_engine
             (Analyzer.GetStationPairs "DESC" 3)
             (snd (Analyzer.init no_rows_engine "local")))
      with (s := (Analyzer.get_station_pairs_qry "DESC", [3%Z])).
    + vm_compute. reflexivity.
    + reflexivity.
  - apply (C3_no_rows_raises_ErrNoResults pretty one_row_engine
             (Analyzer.GetStationPairs "DESC" 3)
             (snd (Analyzer.init one_row_engine "local"))).
    vm_compute. reflexivity.
Defined.

(** C5: in local mode every report method hands to the engine exactly the
    text it first binds to [qry], with its parameter values; that text holds
    no [WITH] clause (for [get_station_pairs], with [order] one of its two
    declared values). *)
Theorem C5_local_mode_executes_base_query {cell} (str : cell → string)
    (engine : list Analyzer.stmt → Analyzer.stmt → string + list (list cell))
    (r : Analyzer.report) (self : Analyzer.t) :
  Analyzer.mode self = "local" →
  Analyzer.executed (Analyzer.call str engine r) self =
    [(Analyzer.base_query r, Analyzer.arguments r)] ∧
  ((∀ order limit, r = Analyzer.GetStationPairs order limit →
                   order = "ASC" ∨ order = "DESC") →
   occurs "WITH" (Analyzer.base_query r) = false).
Proof.
  intros Hmode. split.
  - rewrite executed_call, compose_not_remote; [done|].
    unfold Analyzer.is_remote. by rewrite Hmode.
  - intros Horder. destruct r as [c|n st en|l|l|order l];
      try (vm_compute; reflexivity).
    destruct (Horder order l eq_refl) as [-> | ->]; vm_compute; reflexivity.
Qed.

Lemma C5_local_mode_executes_base_query_witness :
  Analyzer.executed
      (Analyzer.call pretty one_row_engine (Analyzer.GetStations 5))
      (snd (Analyzer.init one_row_engine "local")) =
    [(Analyzer.base_query (Analyzer.GetStations 5),
      Analyzer.arguments (Analyzer.GetStations 5))] ∧
  ((∀ order limit, Analyzer.GetStations 5 =
                     Analyzer.GetStationPairs order limit →
                   order = "ASC" ∨ order = "DESC") →
   occurs "WITH" (Analyzer.base_query (Analyzer.GetStations 5)) = false).
Proof.
  apply (C5_local_mode_executes_base_query pretty one_row_engine
           (Analyzer.GetStations 5)
           (snd (Analyzer.init one_row_engine "local"))).
  reflexivity.
Defined.

(** C6: for a table name with no entry in [self.subqueries], [add_cte] and
    [create_tbl] both raise the built-in [Exception] with the message naming
    the table, [create_tbl] executes nothing, and that exception is not the
    empty-result error. *)
Theorem C6_missing_subquery_raises {cell}
    (engine : list Analyzer.stmt → Analyzer.stmt → string + list (list cell))
    (self : Analyzer.t) (qry tbl : string) :
  Analyzer.subqueries self !! tbl = None →
  let e := Exception ("No subquery defined for " +:+ tbl) in
  Analyzer.add_cte qry tbl self = (inl e, self) ∧
  Analyzer.create_tbl engine tbl self = (inl e, self) ∧
  e ≠ ErrNoResults.
Proof.
  intros Hnone. cbn zeta.
  assert (Hget : Analyzer.get_subquery tbl self =
                   (inl (Exception ("No subquery defined for " +:+ tbl)),
                    self)).
  { unfold Analyzer.get_subquery, bind, get. by rewrite Hnone. }
  split; [|split].
  - unfold Analyzer.add_cte. by erewrite bind_raise.
  - unfold Analyzer.create_tbl. by erewrite bind_raise.
  - discriminate.
Qed.

Lemma C6_missing_subquery_raises_witness :
  let self := snd (Analyzer.init one_row_engine "remote") in
  let e := Exception ("No subquery defined for " +:+ "trains") in
  Analyzer.add_cte "FROM trains" "trains" self = (inl e, self) ∧
  Analyzer.create_tbl one_row_engine "trains" self = (inl e, self) ∧
  e ≠ ErrNoResults.
Proof.
  apply (C6_missing_subquery_raises one_row_engine
           (snd (Analyzer.init one_row_engine "remote"))
           "FROM trains" "trains").
  vm_compute. reflexivity.
Defined.

(** C9, as stated, fails: the text of [get_station_pairs] holds its [order]
    argument, which is neither an identifier nor a file reference and is
    given anew at every call; on one session, with the same [limit], the
    calls with ["ASC"] and with ["DESC"] hand the engine different texts. *)
Lemma C9_counterexample :
  let self := Analyzer.init_attrs "local" in
  let text order :=
    fst <$> Analyzer.executed
              (Analyzer.get_station_pairs pretty one_row_engine order 3)
              self in
  text "ASC" ≠ text "DESC" ∧
  Forall (λ t, occurs "ORDER BY distance ASC" t = true) (text "ASC") ∧
  Forall (λ t, occurs "ORDER BY distance DESC" t = true) (text "DESC").
Proof.
  cbn zeta. split; [|split].
  - intros Heq.
    apply (f_equal (λ l, match l with
                         | [t] => occurs "ORDER BY distance ASC" t
                         | _ => false
                         end)) in Heq.
    vm_compute in Heq. discriminate Heq.
  - vm_compute. repeat constructor.
  - vm_compute. repeat constructor.
Qed.

(** C9, amended: for each report method, the text handed to the engine is
    the same for any two choices of the values of [month_cutoff], [n],
    [start], [end] and [limit]; these values travel in the parameter list of
    the statement, in the order of the placeholders, and never enter the
    text.  Apart from what the session fixes, the text holds one argument of
    the call: [get_station_pairs] puts its [order] argument into the text,
    after [ORDER BY distance]. *)
Theorem C9_query_text_fixed_up_to_order {cell} (str : cell → string)
    (engine : list Analyzer.stmt → Analyzer.stmt → string + list (list cell))
    (self : Analyzer.t) :
  let text (m : M Analyzer.t Table.t) := fst <$> Analyzer.executed m self in
  (∀ c c', text (Analyzer.get_busiest_by_month str engine c) =
           text (Analyzer.get_busiest_by_month str engine c')) ∧
  (∀ n st en n' st' en',
     text (Analyzer.get_top_n_stations_in_period str engine n st en) =
     text (Analyzer.get_top_n_stations_in_period str engine n' st' en')) ∧
  (∀ l l', text (Analyzer.get_stations str engine l) =
           text (Analyzer.get_stations str engine l')) ∧
  (∀ l l', text (Analyzer.get_distances str engine l) =
           text (Analyzer.get_distances str engine l')) ∧
  (∀ order l l', text (Analyzer.get_station_pairs str engine order l) =
                 text (Analyzer.get_station_pairs str engine order l')) ∧
  (∀ r, Forall (λ s, s.2 = Analyzer.arguments r)
               (Analyzer.executed (Analyzer.call str engine r) self)) ∧
  (∀ order l,
     Analyzer.executed (Analyzer.get_station_pairs str engine order l) self =
       [(Analyzer.get_station_pairs_qry order, [l])]).
Proof.
  cbn zeta.
  assert (Htext : ∀ r r',
            Analyzer.compose r self = Analyzer.compose r' self →
            fst <$> Analyzer.executed (Analyzer.call str engine r) self =
            fst <$> Analyzer.executed (Analyzer.call str engine r') self).
  { intros r r' Heq. rewrite !executed_call, Heq.
    by destruct (fst (Analyzer.compose r' self)). }
  split; [|split; [|split; [|split; [|split; [|split]]]]].
  - intros c c'.
    exact (Htext (Analyzer.GetBusiestByMonth c)
                 (Analyzer.GetBusiestByMonth c') eq_refl).
  - intros n st en n' st' en'.
    exact (Htext (Analyzer.GetTopNStationsInPeriod n st en)
                 (Analyzer.GetTopNStationsInPeriod n' st' en') eq_refl).
  - intros l l'.
    exact (Htext (Analyzer.GetStations l) (Analyzer.GetStations l') eq_refl).
  - intros l l'.
    exact (Htext (Analyzer.GetDistances l) (Analyzer.GetDistances l') eq_refl).
  - intros order l l'.
    exact (Htext (Analyzer.GetStationPairs order l)
                 (Analyzer.GetStationPairs order l') eq_refl).
  - intros r. rewrite executed_call.
    destruct (fst (Analyzer.compose r self)); repeat constructor.
  - intros order l.
    exact (executed_call str engine (Analyzer.GetStationPairs order l) self).
Qed.

(** C10: an [Analyzer] constructed without a [mode] argument is in remote
    mode; its constructor succeeds without executing any statement (no
    table is created), and each of the three datasets resolves to its URL. *)
Theorem C10_default_mode_is_remote {cell}
    (engine : list Analyzer.stmt → Analyzer.stmt → string + list (list cell)) :
  ∃ self,
    Analyzer.new engine None = (inr tt, self) ∧
    Analyzer.mode self = "remote" ∧ Analyzer.is_remote self = true ∧
    Analyzer.con self = [] ∧
    Analyzer.services_file self = SVCS_CSV_URL ∧
    Analyzer.stations_file self = STAT_CSV_URL ∧
    Analyzer.distances_file self = DIST_CSV_URL ∧
    Analyzer.files self =
      [("services", SVCS_CSV_URL); ("stations", STAT_CSV_URL);
       ("distances", DIST_CSV_URL)].
Proof. eexists. split; [reflexivity|]. repeat split. Qed.

(** ** The top-N query *)

Section TopNFacts.

Context {station_name : Type}.

Implicit Types (r x : TopN.row station_name) (l tbl : list (TopN.row station_name)).

Local Open Scope Z_scope.

Lemma insert_desc_perm r l : TopN.insert_desc r l ≡ₚ r :: l.
Proof.
  induction l as [|x l IH]; [done|]. cbn.
  case_decide; [done|]. rewrite IH. apply Permutation_swap.
Qed.

Lemma sort_desc_perm l : TopN.sort_desc l ≡ₚ l.
Proof.
  induction l as [|x l IH]; [done|].
  cbn. rewrite insert_desc_perm. by constructor.
Qed.

Lemma insert_desc_descending r l :
  TopN.descending l → TopN.descending (TopN.insert_desc r l).
Proof.
  unfold TopN.descending. induction 1 as [|x l Hl IH Hx]; cbn.
  - repeat constructor.
  - case_decide as Hlt.
    + constructor; [by constructor|]. constructor; [lia|].
      rewrite Forall_forall in Hx |- *. intros y Hy.
      specialize (Hx y Hy). cbn in Hx. lia.
    + constructor; [done|].
      rewrite insert_desc_perm. constructor; [lia|done].
  Qed.

Lemma sort_desc_descending l : TopN.descending (TopN.sort_desc l).
Proof.
  induction l as [|x l IH]; [constructor|].
  by apply insert_desc_descending.
Qed.

Lemma filter_none (P : TopN.row station_name → Prop)
    `{!∀ x, Decision (P x)} l :
  (∀ x, x ∈ l → ¬ P x) → filter P l = [].
Proof.
  induction l as [|y l IH]; intros Hnone; [done|].
  rewrite filter_cons_False by (apply Hnone; left).
  apply IH. intros x Hx. apply Hnone. by right.
Qed.

(** In a descending list that holds the value [k], the first row with [k]
    comes right after the rows with more than [k]. *)
Lemma first_peer_descending (k : Z) l :
  TopN.descending l → (∃ x, x ∈ l ∧ TopN.num_services x = k) →
  TopN.first_peer k l =
    length (filter (λ x, k < TopN.num_services x) l).
Proof.
  unfold TopN.descending. induction 1 as [|y l Hl IH Hy]; intros (x & Hin & Hk).
  - by apply elem_of_nil in Hin.
  - cbn [TopN.first_peer]. rewrite Forall_forall in Hy. case_decide as Heq.
    + rewrite filter_cons_False by lia.
      rewrite filter_none; [done|].
      intros z Hz. specialize (Hy z Hz). cbn in Hy. lia.
    + apply elem_of_cons in Hin as [->|Hin]; [done|].
      pose proof (Hy x Hin) as Hle. cbn in Hle.
      rewrite filter_cons_True by lia. cbn [length]. f_equal.
      apply IH. eauto.
Qed.

(** [rank()] over the rows that passed [BETWEEN] is the competition rank
    in the whole table. *)
Lemma rank_competition (start end_ : Z) tbl r :
  r ∈ tbl → start ≤ TopN.month r ≤ end_ →
  TopN.rank (filter (λ x, start ≤ TopN.month x ∧ TopN.month x ≤ end_) tbl) r =
    TopN.competition_rank tbl r.
Proof.
  intros Hin Hperiod. unfold TopN.rank, TopN.competition_rank.
  rewrite list_filter_filter.
  rewrite (list_filter_iff _ (λ x, TopN.month x = TopN.month r)).
  2:{ intros x. split; [by intros [? _]|]. intros Hm. rewrite Hm. lia. }
  rewrite first_peer_descending.
  - rewrite sort_desc_perm, list_filter_filter.
    rewrite (list_filter_iff _
               (λ x, TopN.month x = TopN.month r ∧
                     TopN.num_services r < TopN.num_services x)).
    + lia.
    + intros x. tauto.
  - apply sort_desc_descending.
  - exists r. split; [|done].
    rewrite sort_desc_perm. by apply list_elem_of_filter.
Qed.

Lemma month_name_valid (m : Z) : 1 ≤ m ≤ 12 → is_Some (TopN.month_name m).
Proof.
  intros Hm. unfold TopN.month_name. rewrite decide_True by lia.
  apply lookup_lt_is_Some_2. cbn. lia.
Qed.

Lemma mapM_elem_of {A B} (f : A → option B) (l : list A) (k : list B) y :
  mapM f l = Some k → y ∈ k ↔ ∃ a, a ∈ l ∧ f a = Some y.
Proof.
  rewrite mapM_Some. induction 1 as [|x z l k Hx Hall IH].
  - split; [by intros ?%elem_of_nil|by intros (x & ?%elem_of_nil & _)].
  - rewrite elem_of_cons, IH. split.
    + intros [->|(x' & Hin & Hf)]; [exists x|exists x'];
        (split; [|done]); [by left|by right].
    + intros (x' & [->|Hin]%elem_of_cons & Hf); [left; congruence|].
      right. eauto.
Qed.

(** The rows of the outer [SELECT] list exactly the stations of the inner
    rows with [rank <= n], each under its month. *)
Lemma outer_listed (n m : Z) (s : station_name)
    (rows : list (TopN.ranked station_name)) :
  TopN.listed (TopN.outer n rows) m s ↔
  ∃ y, y ∈ rows ∧ TopN.r_rank y ≤ n ∧
       TopN.r_month y = m ∧ TopN.r_station y = s.
Proof.
  unfold TopN.listed, TopN.outer. split.
  - intros (name & stations & Hrow & Hs).
    rewrite merge_sort_Permutation in Hrow.
    apply list_elem_of_fmap in Hrow as (g & Heq & Hg).
    injection Heq as <- ->.
    apply list_elem_of_fmap in Hs as (y & -> & Hy).
    apply list_elem_of_filter in Hy as [Hkey Hy].
    apply list_elem_of_filter in Hy as [Hrank Hy].
    exists y. injection Hkey as Hm _. done.
  - intros (y & Hy & Hrank & <- & <-).
    assert (Hkept : y ∈ filter (λ z, TopN.r_rank z ≤ n) rows)
      by (by apply list_elem_of_filter).
    exists (TopN.r_month_name y), (TopN.r_station <$>
      filter (λ z, (TopN.r_month z, TopN.r_month_name z) =
                   (TopN.r_month y, TopN.r_month_name y))
             (filter (λ z, TopN.r_rank z ≤ n) rows)).
    split.
    + rewrite merge_sort_Permutation. apply list_elem_of_fmap.
      exists (TopN.r_month y, TopN.r_month_name y). split; [done|].
      apply elem_of_remove_dups, list_elem_of_fmap. eauto.
    + apply list_elem_of_fmap. exists y. split; [done|].
      by apply list_elem_of_filter.
Qed.

End TopNFacts.

(** C8: with the months of [services_per_month] in 1..12, as [month()]
    yields them, the query succeeds and lists a station under a month exactly
    when the table has a row for that station and month, the month lies
    between [start] and [end], and the row's competition rank within its
    month is at most [n].  Rows that tie share their rank, so they are listed
    or left out together. *)
Theorem C8_top_n_uses_competition_ranking {station_name}
    (tbl : list (TopN.row station_name)) (n start end_ : Z) :
  Forall (λ r, 1 ≤ TopN.month r ≤ 12)%Z tbl →
  ∃ out,
    TopN.query n start end_ tbl = Some out ∧
    (∀ m s,
       TopN.listed out m s ↔
       ∃ r, r ∈ tbl ∧ TopN.month r = m ∧ TopN.station r = s ∧
            (start ≤ m ≤ end_)%Z ∧ (TopN.competition_rank tbl r ≤ n)%Z) ∧
    (∀ r r', TopN.month r = TopN.month r' →
             TopN.num_services r = TopN.num_services r' →
             TopN.competition_rank tbl r = TopN.competition_rank tbl r').
Proof.
  intros Hvalid. unfold TopN.query.
  set (rows := filter (λ r, start ≤ TopN.month r ∧ TopN.month r ≤ end_)%Z tbl).
  destruct (TopN.inner start end_ tbl) as [rk|] eqn:Hinner.
  2:{ exfalso. apply (is_Some_None (A := list (TopN.ranked station_name))).
      rewrite <- Hinner. apply mapM_is_Some_2.
      apply Forall_forall. intros r Hr. cbn.
      apply list_elem_of_filter in Hr as [_ Hr].
      rewrite Forall_forall in Hvalid.
      destruct (month_name_valid (TopN.month r) (Hvalid r Hr)) as [nm ->].
      by eexists. }
  exists (TopN.outer n rk). split; [done|]. split.
  - intros m s. rewrite outer_listed. split.
    + intros (y & Hy & Hrank & <- & <-).
      apply (mapM_elem_of _ _ _ y Hinner) in Hy as (r & Hr & Hf).
      apply list_elem_of_filter in Hr as [Hperiod Hr].
      destruct (TopN.month_name (TopN.month r)) as [nm|]; [|done].
      injection Hf as <-. cbn in *.
      exists r. repeat split; [done|lia..|].
      rewrite <- (rank_competition start end_) by (done || lia). done.
    + intros (r & Hr & <- & <- & Hperiod & Hrank).
      rewrite Forall_forall in Hvalid.
      destruct (month_name_valid (TopN.month r) (Hvalid r Hr)) as [nm Hnm].
      exists (TopN.mk_ranked (TopN.month r) nm (TopN.rank rows r)
                (TopN.station r) (TopN.num_services r)).
      split; [|split; [|done]].
      * apply (mapM_elem_of _ _ _ _ Hinner). exists r. split.
        -- apply list_elem_of_filter. split; [lia|done].
        -- by rewrite Hnm.
      * cbn. unfold rows. rewrite rank_competition by (done || lia). done.
  - intros r r' Hm Hk. unfold TopN.competition_rank. by rewrite Hm, Hk.
Qed.

Lemma C8_top_n_uses_competition_ranking_witness :
  ∃ out,
    TopN.query 2 6 8 june_tie = Some out ∧
    (∀ m s,
       TopN.listed out m s ↔
       ∃ r, r ∈ june_tie ∧ TopN.month r = m ∧ TopN.station r = s ∧
            (6 ≤ m ≤ 8)%Z ∧ (TopN.competition_rank june_tie r ≤ 2)%Z) ∧
    (∀ r r', TopN.month r = TopN.month r' →
             TopN.num_services r = TopN.num_services r' →
             TopN.competition_rank june_tie r =
               TopN.competition_rank june_tie r').
Proof.
  apply (C8_top_n_uses_competition_ranking june_tie 2 6 8).
  repeat (constructor; [simpl; lia|]). constructor.
Defined.

(** The spec's scenario 4: with [n = 2] over months 6 to 8, the three
    stations tied at rank 1 in June are all listed, and the station behind
    them, at rank 4, is not. *)
Example top_n_three_way_tie :
  TopN.query 2 6 8 june_tie =
    Some [(6, "June", ["Utrecht"; "Zwolle"; "Leiden"]);
          (7, "July", ["Zwolle"; "Leiden"]);
          (8, "August", ["Delft"])]%Z ∧
  TopN.competition_rank june_tie (TopN.mk_row 6 "Delft" 9) = 4%Z.
Proof. split; vm_compute; reflexivity. Qed.

(** A local session starts by creating the five tables, base tables before
    the tables derived from them; each statement is a [CREATE TABLE]. *)
Example local_init_creates_tables :
  let self := snd (Analyzer.init one_row_engine "local") in
  length (Analyzer.con self) = 5%nat ∧
  Forall (λ s, occurs "CREATE TABLE " s.1 = true ∧ s.2 = []) (Analyzer.con self) ∧
  (λ s, occurs "CREATE TABLE distances AS" s.1) <$> Analyzer.con self =
    [false; false; false; true; false] ∧
  (λ s, occurs "CREATE TABLE distances_long AS" s.1) <$> Analyzer.con self =
    [false; false; false; false; true].
Proof.
  cbn zeta. split; [reflexivity|]. split; [|split; vm_compute; reflexivity].
  repeat (constructor; [split; vm_compute; reflexivity|]). constructor.
Qed.

(** In a remote session the four methods that call [add_cte] find their
    table registered, so each hands over a text that starts with the [WITH]
    clause of that table. *)
Example remote_get_stations_text :
  Analyzer.executed
      (Analyzer.call pretty one_row_engine (Analyzer.GetStations 5))
      (snd (Analyzer.init one_row_engine "remote")) =
    [(Analyzer.cte_text Analyzer.get_stations_qry "stations"
        ("FROM " +:+ py_repr STAT_CSV_URL), [5%Z])].
Proof. vm_compute. reflexivity. Qed.

(** * Further properties *)

(** ** Report calls as session steps *)

Section SessionFacts.

Context {cell : Type} (str : cell → string).
Context (engine : list Analyzer.stmt → Analyzer.stmt → string + list (list cell)).

Implicit Types (self : Analyzer.t) (r : Analyzer.report).

Lemma set_con_id self : Analyzer.set_con (Analyzer.con self) self = self.
Proof. by destruct self. Qed.

Lemma set_con_set_con c c' self :
  Analyzer.set_con c (Analyzer.set_con c' self) = Analyzer.set_con c self.
Proof. done. Qed.

(** What the builder makes of a result, in both cases. *)
Lemma table_of_run (title : string) (columns : list string)
    (result : list (list cell)) :
  (Forall (λ row, length row = length columns) result →
   TableMaker.table_of str title columns result =
     inr (Table.mk title columns (map (map str) result))) ∧
  (¬ Forall (λ row, length row = length columns) result →
   ∃ pre bad post,
     result = pre ++ bad :: post ∧
     Forall (λ row, length row = length columns) pre ∧
     length bad ≠ length columns ∧
     TableMaker.table_of str title columns result =
       inl (Exception (TableMaker.mismatch_msg
                         (length bad) (length columns)))).
Proof.
  unfold TableMaker.table_of. erewrite bind_ok by apply with_columns_spec.
  cbn. split.
  - intros Hall. erewrite bind_ok by (by apply with_rows_ok).
    by rewrite build_spec.
  - intros Hnot.
    apply first_mismatch in Hnot as (pre & bad & post & -> & Hpre & Hbad).
    exists pre, bad, post. repeat split; [done..|].
    by erewrite bind_raise by (by apply with_rows_mismatch).
Qed.

Lemma after_frame (rs : list Analyzer.report) self :
  ∃ c, Analyzer.after str engine rs self = Analyzer.set_con c self.
Proof.
  revert self. induction rs as [|r rs IH]; intros self.
  - exists (Analyzer.con self). by rewrite set_con_id.
  - cbn [Analyzer.after foldl].
    destruct (IH (snd (Analyzer.call str engine r self))) as [c Hc].
    exists c. unfold Analyzer.after in Hc. rewrite Hc, call_run.
    destruct (fst (Analyzer.compose r self)) as [e|qry]; [done|]. cbn zeta.
    by destruct (engine (Analyzer.con self) (qry, Analyzer.arguments r))
      as [e|[|row result]].
Qed.

End SessionFacts.

(** X1: a report call touches nothing of the session but the connection,
    to whose history it appends the statements it executed, at most one. *)
Theorem X1_report_call_frame {cell} (str : cell → string)
    (engine : list Analyzer.stmt → Analyzer.stmt → string + list (list cell))
    (r : Analyzer.report) (self : Analyzer.t) :
  let self' := snd (Analyzer.call str engine r self) in
  let stmts := Analyzer.executed (Analyzer.call str engine r) self in
  self' = Analyzer.set_con (Analyzer.con self ++ stmts) self ∧
  (length stmts ≤ 1)%nat ∧
  Analyzer.mode self' = Analyzer.mode self ∧
  Analyzer.files self' = Analyzer.files self ∧
  Analyzer.subqueries self' = Analyzer.subqueries self.
Proof.
  cbn zeta. rewrite executed_call, call_run.
  destruct (fst (Analyzer.compose r self)) as [e|qry]; cbn zeta.
  - rewrite app_nil_r, set_con_id. cbn. repeat split; lia.
  - destruct (engine (Analyzer.con self) (qry, Analyzer.arguments r))
      as [e|[|row result]]; cbn; repeat split; lia.
Qed.

(** X2: an error the engine raises on the statement of a report call comes
    out of the call as it is; the statement is not handed over again. *)
Theorem X2_engine_error_propagates {cell} (str : cell → string)
    (engine : list Analyzer.stmt → Analyzer.stmt → string + list (list cell))
    (r : Analyzer.report) (self : Analyzer.t) (s : Analyzer.stmt)
    (msg : string) :
  Analyzer.executed (Analyzer.call str engine r) self = [s] →
  engine (Analyzer.con self) s = inl msg →
  Analyzer.call str engine r self =
    (inl (EngineError msg),
     Analyzer.set_con (Analyzer.con self ++ [s]) self).
Proof.
  intros Hexec Herr. rewrite executed_call in Hexec. rewrite call_run.
  destruct (fst (Analyzer.compose r self)) as [e|qry]; [done|].
  injection Hexec as <-. cbn zeta. by rewrite Herr.
Qed.

(** X3: when the engine answers the statement of a report call with at
    least one row, the call returns the table with the method's title and
    columns and the rows turned into strings, if every row has as many
    items as the method declares columns; otherwise it raises the builder's
    mismatch error for the first row that has not. *)
Theorem X3_report_result {cell} (str : cell → string)
    (engine : list Analyzer.stmt → Analyzer.stmt → string + list (list cell))
    (r : Analyzer.report) (self : Analyzer.t) (s : Analyzer.stmt)
    (row : list cell) (rows : list (list cell)) :
  Analyzer.executed (Analyzer.call str engine r) self = [s] →
  engine (Analyzer.con self) s = inr (row :: rows) →
  let width := length (Analyzer.columns_of r) in
  (Forall (λ x, length x = width) (row :: rows) →
   fst (Analyzer.call str engine r self) =
     inr (Table.mk (Analyzer.title_of r) (Analyzer.columns_of r)
                   (map (map str) (row :: rows)))) ∧
  (¬ Forall (λ x, length x = width) (row :: rows) →
   ∃ pre bad post,
     row :: rows = pre ++ bad :: post ∧
     Forall (λ x, length x = width) pre ∧ length bad ≠ width ∧
     fst (Analyzer.call str engine r self) =
       inl (Exception (TableMaker.mismatch_msg (length bad) width))).
Proof.
  intros Hexec Hrows. rewrite executed_call in Hexec. rewrite call_run.
  destruct (fst (Analyzer.compose r self)) as [e|qry]; [done|].
  injection Hexec as <-. cbn zeta. rewrite Hrows. cbn [fst].
  apply table_of_run.
Qed.

Lemma X2_engine_error_propagates_witness :
  Analyzer.call pretty failing_engine (Analyzer.GetStationPairs "ASC" 3)
      (Analyzer.init_attrs "local") =
    (inl (EngineError "IO Error"),
     Analyzer.set_con
       (Analyzer.con (Analyzer.init_attrs "local")
          ++ [(Analyzer.get_station_pairs_qry "ASC", [3%Z])])
       (Analyzer.init_attrs "local")).
Proof.
  apply (X2_engine_error_propagates pretty failing_engine
           (Analyzer.GetStationPairs "ASC" 3) (Analyzer.init_attrs "local")
           (Analyzer.get_station_pairs_qry "ASC", [3%Z]) "IO Error").
  - vm_compute. reflexivity.
  - reflexivity.
Defined.

Lemma X3_report_result_witness :
  let r := Analyzer.GetStationPairs "ASC" 3 in
  let self := Analyzer.init_attrs "local" in
  let width := length (Analyzer.columns_of r) in
  (Forall (λ x, length x = width) [[1; 2; 3]%Z] →
   fst (Analyzer.call pretty one_row_engine r self) =
     inr (Table.mk (Analyzer.title_of r) (Analyzer.columns_of r)
                   (map (map pretty) [[1; 2; 3]%Z]))) ∧
  (¬ Forall (λ x, length x = width) [[1; 2; 3]%Z] →
   ∃ pre bad post,
     [[1; 2; 3]%Z] = pre ++ bad :: post ∧
     Forall (λ x, length x = width) pre ∧ length bad ≠ width ∧
     fst (Analyzer.call pretty one_row_engine r self) =
       inl (Exception (TableMaker.mismatch_msg (length bad) width))).
Proof.
  apply (X3_report_result pretty one_row_engine
           (Analyzer.GetStationPairs "ASC" 3) (Analyzer.init_attrs "local")
           (Analyzer.get_station_pairs_qry "ASC", [3%Z])).
  - vm_compute. reflexivity.
  - reflexivity.
Defined.

(** X4: a [mode] that is neither ["local"] nor ["remote"] is accepted.  The
    constructor then executes nothing and resolves the datasets to their
    URLs, as in remote mode, but no report method adds a [WITH] clause: each
    hands the engine its own text, which names tables nothing has created. *)
Theorem X4_unknown_mode {cell} (str : cell → string)
    (engine : list Analyzer.stmt → Analyzer.stmt → string + list (list cell))
    (mode : string) :
  mode ≠ "local" → mode ≠ "remote" →
  ∃ self,
    Analyzer.init engine mode = (inr tt, self) ∧
    Analyzer.con self = [] ∧
    Analyzer.files self =
      [("services", SVCS_CSV_URL); ("stations", STAT_CSV_URL);
       ("distances", DIST_CSV_URL)] ∧
    ∀ r, Analyzer.executed (Analyzer.call str engine r) self =
           [(Analyzer.base_query r, Analyzer.arguments r)].
Proof.
  intros Hlocal Hremote.
  apply String.eqb_neq in Hlocal, Hremote.
  unfold Analyzer.init, Analyzer.init_attrs. rewrite Hlocal.
  eexists. split; [reflexivity|]. split; [done|]. split; [done|].
  intros r. rewrite executed_call, compose_not_remote; [done|].
  unfold Analyzer.is_remote. exact Hremote.
Qed.

Lemma X4_unknown_mode_witness :
  ∃ self,
    Analyzer.init one_row_engine "Remote" = (inr tt, self) ∧
    Analyzer.con self = [] ∧
    Analyzer.files self =
      [("services", SVCS_CSV_URL); ("stations", STAT_CSV_URL);
       ("distances", DIST_CSV_URL)] ∧
    ∀ r, Analyzer.executed (Analyzer.call pretty one_row_engine r) self =
           [(Analyzer.base_query r, Analyzer.arguments r)].
Proof.
  apply (X4_unknown_mode pretty one_row_engine "Remote"); discriminate.
Defined.

(** X5: in a session constructed in remote mode, at any later point (after
    any report calls, whatever they returned), each of the four methods that
    call [add_cte] hands the engine its own text behind the [WITH] clause of
    its one table, whose body is the query registered for the table with the
    dataset's URL. *)
Theorem X5_remote_session_adds_cte {cell} (str : cell → string)
    (engine : list Analyzer.stmt → Analyzer.stmt → string + list (list cell))
    (rs : list Analyzer.report) (r : Analyzer.report) (tbl : string) :
  Analyzer.cte_table r = Some tbl →
  ∃ subqry,
    Analyzer.init_subqueries SVCS_CSV_URL STAT_CSV_URL DIST_CSV_URL !! tbl =
      Some subqry ∧
    Analyzer.executed (Analyzer.call str engine r)
        (Analyzer.after str engine rs (snd (Analyzer.init engine "remote"))) =
      [(Analyzer.cte_text (Analyzer.base_query r) tbl subqry,
        Analyzer.arguments r)].
Proof.
  intros Htbl.
  destruct (after_frame str engine rs (snd (Analyzer.init engine "remote")))
    as [c ->].
  assert (∃ subqry,
            Analyzer.init_subqueries SVCS_CSV_URL STAT_CSV_URL DIST_CSV_URL
              !! tbl = Some subqry ∧ subqry ≠ "") as (subqry & Hsub & Hne).
  { destruct r; try discriminate Htbl; injection Htbl as <-; eexists;
      (split; [vm_compute; reflexivity|discriminate]). }
  exists subqry. split; [done|].
  by apply executed_remote.
Qed.

Lemma X5_remote_session_adds_cte_witness :
  ∃ subqry,
    Analyzer.init_subqueries SVCS_CSV_URL STAT_CSV_URL DIST_CSV_URL
      !! "stations" = Some subqry ∧
    Analyzer.executed
        (Analyzer.call pretty one_row_engine (Analyzer.GetStations 7))
        (Analyzer.after pretty one_row_engine
           [Analyzer.GetDistances 1; Analyzer.GetStationPairs "ASC" 2]
           (snd (Analyzer.init one_row_engine "remote"))) =
      [(Analyzer.cte_text
          (Analyzer.base_query (Analyzer.GetStations 7)) "stations" subqry,
        Analyzer.arguments (Analyzer.GetStations 7))].
Proof.
  apply (X5_remote_session_adds_cte pretty one_row_engine
           [Analyzer.GetDistances 1; Analyzer.GetStationPairs "ASC" 2]
           (Analyzer.GetStations 7) "stations").
  reflexivity.
Defined.

(** X6: in remote mode, a report method whose table has no entry in
    [self.subqueries] raises [add_cte]'s exception and hands nothing to the
    engine; outside remote mode the same call does not consult the registry
    and executes its own text. *)
Theorem X6_registry_only_read_in_remote_mode {cell} (str : cell → string)
    (engine : list Analyzer.stmt → Analyzer.stmt → string + list (list cell))
    (r : Analyzer.report) (self : Analyzer.t) (tbl : string) :
  Analyzer.cte_table r = Some tbl →
  Analyzer.subqueries self !! tbl = None →
  if Analyzer.is_remote self
  then Analyzer.call str engine r self =
         (inl (Exception ("No subquery defined for " +:+ tbl)), self)
  else Analyzer.executed (Analyzer.call str engine r) self =
         [(Analyzer.base_query r, Analyzer.arguments r)].
Proof.
  intros Htbl Hnone. destruct (Analyzer.is_remote self) eqn:Hmode.
  - rewrite call_run. unfold Analyzer.compose. rewrite Htbl.
    unfold bind at 1, get. rewrite Hmode.
    unfold Analyzer.add_cte, Analyzer.get_subquery, bind, get.
    by rewrite Hnone.
  - by rewrite executed_call, compose_not_remote.
Qed.

Lemma X6_registry_only_read_in_remote_mode_witness :
  if Analyzer.is_remote bare_remote_session
  then Analyzer.call pretty one_row_engine (Analyzer.GetStations 5)
           bare_remote_session =
         (inl (Exception ("No subquery defined for " +:+ "stations")),
          bare_remote_session)
  else Analyzer.executed
           (Analyzer.call pretty one_row_engine (Analyzer.GetStations 5))
           bare_remote_session =
         [(Analyzer.base_query (Analyzer.GetStations 5),
           Analyzer.arguments (Analyzer.GetStations 5))].
Proof.
  apply (X6_registry_only_read_in_remote_mode pretty one_row_engine
           (Analyzer.GetStations 5) bare_remote_session "stations").
  - reflexivity.
  - vm_compute. reflexivity.
Defined.

(** ** Creating the local tables *)

Section LoadFacts.

Context {cell : Type}.
Context (engine : list Analyzer.stmt → Analyzer.stmt → string + list (list cell)).

Implicit Types (self : Analyzer.t).

(** [create_tbl] on a registered table: one statement, whose rows are not
    looked at. *)
Lemma create_tbl_run (tbl subqry : string) self :
  Analyzer.subqueries self !! tbl = Some subqry → subqry ≠ "" →
  Analyzer.create_tbl engine tbl self =
    (match engine (Analyzer.con self) (Analyzer.create_stmt tbl subqry) with
     | inl msg => inl (EngineError msg)
     | inr _ => inr tt
     end,
     Analyzer.set_con
       (Analyzer.con self ++ [Analyzer.create_stmt tbl subqry]) self).
Proof.
  intros Hsub Hne. unfold Analyzer.create_tbl.
  erewrite bind_ok.
  2:{ unfold Analyzer.get_subquery, bind, get. rewrite Hsub.
      destruct subqry; [done|reflexivity]. }
  unfold bind, Analyzer.execute, Analyzer.create_stmt.
  by destruct (engine _ _).
Qed.

(** [load_local_data] is the loop over the five table names. *)
Lemma load_local_data_loop self :
  Analyzer.load_local_data engine self =
    for_ Analyzer.local_tables (Analyzer.create_tbl engine) self.
Proof.
  unfold Analyzer.load_local_data, Analyzer.local_tables. cbn [for_].
  unfold bind.
  repeat (destruct (Analyzer.create_tbl engine _ _) as [[?|[]] ?];
          try reflexivity).
Qed.

End LoadFacts.

(** Whatever the three file references, the registry of [__init__] holds a
    non-empty defining query for each of the five tables. *)
Lemma init_subqueries_registered (f1 f2 f3 : string) :
  Forall (λ tbl, ∃ subqry,
            Analyzer.init_subqueries f1 f2 f3 !! tbl = Some subqry ∧
            subqry ≠ "")
         Analyzer.local_tables.
Proof.
  unfold Analyzer.local_tables.
  repeat (constructor;
          [eexists; split; [vm_compute; reflexivity|discriminate]|]).
  constructor.
Qed.

(** ** Straight-line runs *)

Section StepFacts.

Context {cell : Type} (str : cell → string).
Context (engine : list Analyzer.stmt → Analyzer.stmt → string + list (list cell)).

Implicit Types (self : Analyzer.t)
  (steps : list (Analyzer.step (cell := cell))).


(** Creating registered tables one after the other. *)
Lemma create_loop_steps (tbls : list string) (registry : gmap string string)
    self out :
  Analyzer.subqueries self = registry →
  Forall (λ tbl, ∃ subqry, registry !! tbl = Some subqry ∧ subqry ≠ "")
         tbls →
  let run :=
    Analyzer.run_steps engine
      ((λ tbl, Analyzer.create_step tbl (default "" (registry !! tbl)))
         <$> tbls)
      (Analyzer.con self) out in
  for_ tbls (Analyzer.create_tbl engine) self =
    (run.1, Analyzer.set_con run.2.1 self) ∧
  run.2.2 = out.
Proof.
  intros Hreg Hall. cbn zeta. revert self Hreg.
  induction Hall as [|tbl tbls (subqry & Hsub & Hne) Hall IH];
    intros self Hreg.
  - cbn. by rewrite set_con_id.
  - cbn [for_ fmap list_fmap Analyzer.run_steps]. unfold bind.
    rewrite (create_tbl_run engine tbl subqry) by (by rewrite ?Hreg).
    rewrite Hsub. cbn [default Analyzer.create_step Analyzer.step_stmt
                       Analyzer.step_react]. unfold id.
    destruct (engine (Analyzer.con self) (Analyzer.create_stmt tbl subqry))
      as [msg|rows]; [cbn [fst snd]; done|].
    cbn [option_list]. rewrite app_nil_r.
    destruct (IH (Analyzer.set_con
                    (Analyzer.con self ++ [Analyzer.create_stmt tbl subqry])
                    self) Hreg) as [Hrun Hout].
    cbn [Analyzer.con Analyzer.set_con] in Hrun, Hout.
    split; [|exact Hout]. rewrite Hrun. by rewrite set_con_set_con.
Qed.










End StepFacts.

(** X7: on a session set up by [__init__] (in whatever mode, and whatever
    the connection has executed so far), [load_local_data] is the run
    through the five [CREATE TABLE] steps in the order services,
    services_per_month, stations, distances, distances_long: each statement
    is handed to the engine once, the first one the engine refuses ends the
    run with the engine's error, the later ones are then not executed, and
    the rows the engine returns are not looked at. *)
Theorem X7_load_local_data_in_order {cell}
    (engine : list Analyzer.stmt → Analyzer.stmt → string + list (list cell))
    (mode : string) (c : list Analyzer.stmt) :
  let self := Analyzer.set_con c (Analyzer.init_attrs mode) in
  let run := Analyzer.run_steps engine (Analyzer.load_steps self) c [] in
  Analyzer.load_local_data engine self =
    (run.1, Analyzer.set_con run.2.1 self).
Proof.
  cbn zeta. rewrite load_local_data_loop.
  apply (create_loop_steps engine Analyzer.local_tables
           (Analyzer.subqueries (Analyzer.init_attrs mode))
           (Analyzer.set_con c (Analyzer.init_attrs mode)) [] eq_refl).
  apply init_subqueries_registered.
Qed.






(** The script stops at a refused [CREATE TABLE]: with an engine that
    raises on every statement, only the first statement is executed and
    nothing is printed. *)
Example main_with_failing_engine :
  ∃ self,
    Analyzer.main pretty failing_engine =
      (inl (EngineError "IO Error"), (self, [])) ∧
    length (Analyzer.con self) = 1%nat.
Proof. eexists. split; [vm_compute; reflexivity|reflexivity]. Qed.

(** ** The builder under any order of calls *)

Section BuilderFacts.

Context {cell : Type} (str : cell → string).

Implicit Types (tm : TableMaker.t (cell := cell))
  (ops : list (TableMaker.op (cell := cell))).

Lemma forallb_width (n : nat) (rs : list (list cell)) :
  forallb (λ row, length row =? n)%nat rs = true ↔
  Forall (λ row, length row = n) rs.
Proof.
  rewrite forallb_forall, Forall_forall. split.
  - intros H row Hin. apply Nat.eqb_eq, H. by apply list_elem_of_In.
  - intros H row Hin. apply Nat.eqb_eq, H. by apply list_elem_of_In.
Qed.

Lemma calls_accepted ops tm :
  TableMaker.accepted (length (TableMaker.cols tm)) ops = true →
  for_ ops TableMaker.call tm =
    (inr tt, TableMaker.mk (TableMaker.table tm)
                           (TableMaker.cols tm ++ TableMaker.declared ops)
                           (TableMaker.rows tm ++ TableMaker.passed ops)).
Proof.
  revert tm. induction ops as [|[name|rs] ops IH]; intros [tb cl rw] Hacc.
  - cbn. by rewrite !app_nil_r.
  - cbn [for_ TableMaker.call TableMaker.declared TableMaker.passed].
    erewrite bind_ok by reflexivity. rewrite IH.
    + cbn. by rewrite <- app_assoc.
    + cbn in *. rewrite length_app. cbn. by rewrite Nat.add_1_r.
  - cbn [for_ TableMaker.call TableMaker.declared TableMaker.passed].
    cbn in Hacc. apply andb_true_iff in Hacc as [Hrs Hacc].
    apply forallb_width in Hrs.
    erewrite bind_ok by (by apply with_rows_ok).
    rewrite IH by done. cbn. by rewrite <- app_assoc.
Qed.

Lemma calls_rejected ops tm :
  TableMaker.accepted (length (TableMaker.cols tm)) ops = false →
  ∃ got expected tm',
    for_ ops TableMaker.call tm =
      (inl (Exception (TableMaker.mismatch_msg got expected)), tm').
Proof.
  revert tm. induction ops as [|[name|rs] ops IH]; intros [tb cl rw] Hacc.
  - done.
  - cbn [for_ TableMaker.call]. erewrite bind_ok by reflexivity.
    apply IH. cbn in *. rewrite length_app. cbn. by rewrite Nat.add_1_r.
  - cbn [for_ TableMaker.call]. cbn in Hacc.
    destruct (forallb (λ row, length row =? length cl)%nat rs) eqn:Hrs.
    + apply forallb_width in Hrs.
      erewrite bind_ok by (by apply with_rows_ok). by apply IH.
    + assert (Hnot : ¬ Forall (λ row, length row = length cl) rs).
      { intros Hall. apply forallb_width in Hall. congruence. }
      apply first_mismatch in Hnot as (pre & bad & post & -> & Hpre & Hbad).
      eexists _, _, _. erewrite bind_raise; [reflexivity|].
      by apply with_rows_mismatch.
Qed.

End BuilderFacts.

(** X11: passing rows in two [with_rows] calls is the same as passing them
    in one, in outcome and in what the builder holds afterwards, also when a
    row is refused. *)
Theorem X11_with_rows_splits {cell} (tm : TableMaker.t (cell := cell))
    (rs1 rs2 : list (list cell)) :
  TableMaker.with_rows (rs1 ++ rs2) tm =
    (TableMaker.with_rows rs1 ;;; TableMaker.with_rows rs2) tm.
Proof. unfold TableMaker.with_rows. apply for_app. Qed.

(** X12: whatever the order of the [with_column] and [with_rows] calls on a
    new builder, [build] is reached exactly when every row passed has as
    many items as columns had been declared before its [with_rows] call.
    The table then has the title, the declared names in order as its
    columns, and the passed rows in order, turned into strings, as its
    rows; otherwise the chain raises a mismatch error. *)
Theorem X12_chain_any_order {cell} (str : cell → string) (title : string)
    (ops : list (TableMaker.op (cell := cell))) :
  if TableMaker.accepted 0 ops
  then fst (TableMaker.chain str title ops) =
         inr (Table.mk title (TableMaker.declared ops)
                       (map (map str) (TableMaker.passed ops)))
  else ∃ got expected,
         fst (TableMaker.chain str title ops) =
           inl (Exception (TableMaker.mismatch_msg got expected)).
Proof.
  unfold TableMaker.chain.
  destruct (TableMaker.accepted 0 ops) eqn:Hacc.
  - erewrite bind_ok by (by apply calls_accepted).
    by rewrite build_spec.
  - destruct (calls_rejected ops (TableMaker.new title) Hacc)
      as (got & expected & tm' & Hrun).
    exists got, expected. by erewrite bind_raise.
Qed.

(** ** File references in the registry *)

Lemma string_app_assoc (a b c : string) :
  (a +:+ b) +:+ c = a +:+ (b +:+ c).
Proof.
  induction a as [|x a IH]; [done|].
  change (String x ((a +:+ b) +:+ c) = String x (a +:+ (b +:+ c))).
  by f_equal.
Qed.

Lemma repr_body_plain (s : string) :
  plain s = true → repr_body "'"%char s = s ∧ contains_char "'"%char s = false.
Proof.
  induction s as [|c s IH]; [done|]. cbn [plain repr_body contains_char].
  intros [Hc Hs]%andb_true_iff. destruct (IH Hs) as [-> ->].
  unfold plain_char in Hc. cbn zeta in Hc.
  apply andb_true_iff in Hc as [Hc Hlt].
  apply andb_true_iff in Hc as [Hc Hge].
  apply andb_true_iff in Hc as [Hbs Hq].
  apply negb_true_iff in Hbs, Hq.
  apply Nat.leb_le in Hge. apply Nat.ltb_lt in Hlt.
  unfold repr_char. cbn zeta. rewrite Hbs, Hq.
  rewrite Ascii.eqb_sym in Hq. rewrite Hq.
  destruct (Nat.eqb_spec (nat_of_ascii c) 9); [lia|].
  destruct (Nat.eqb_spec (nat_of_ascii c) 10); [lia|].
  destruct (Nat.eqb_spec (nat_of_ascii c) 13); [lia|].
  destruct (Nat.ltb_spec (nat_of_ascii c) 32); [lia|].
  destruct (Nat.eqb_spec (nat_of_ascii c) 127); [lia|].
  done.
Qed.

(** On plain text, [repr] only puts single quotes around it. *)
Lemma py_repr_plain (s : string) :
  plain s = true → py_repr s = "'" +:+ s +:+ "'".
Proof.
  intros Hs. destruct (repr_body_plain s Hs) as [Hbody Hq].
  unfold py_repr. rewrite Hq. cbn [andb]. cbv zeta. by rewrite Hbody.
Qed.

(** X13: when the three file references are plain text (printable ASCII
    with no backslash and no single quote, as all six of [config.py] are),
    the registry of [__init__] defines the three file-backed tables by
    reading the reference itself, between single quotes: [FROM '<file>'] for
    services and stations, and [FROM read_csv('<file>', nullstr='XXX')] for
    distances. *)
Theorem X13_file_backed_subqueries (f1 f2 f3 : string) :
  plain f1 = true → plain f2 = true → plain f3 = true →
  Analyzer.init_subqueries f1 f2 f3 !! SVCS_TBL_NAME =
    Some ("FROM '" +:+ f1 +:+ "'") ∧
  Analyzer.init_subqueries f1 f2 f3 !! STAT_TBL_NAME =
    Some ("FROM '" +:+ f2 +:+ "'") ∧
  Analyzer.init_subqueries f1 f2 f3 !! DIST_TBL_NAME =
    Some ("FROM read_csv('" +:+ f3 +:+ "', nullstr='XXX')") ∧
  Forall (λ f, plain f = true)
    [SVCS_CSV_FILE; SVCS_CSV_URL; STAT_CSV_FILE; STAT_CSV_URL;
     DIST_CSV_FILE; DIST_CSV_URL].
Proof.
  intros H1 H2 H3.
  assert (Analyzer.init_subqueries f1 f2 f3 !! SVCS_TBL_NAME =
            Some ("FROM " +:+ py_repr f1)) as -> by (vm_compute; reflexivity).
  assert (Analyzer.init_subqueries f1 f2 f3 !! STAT_TBL_NAME =
            Some ("FROM " +:+ py_repr f2)) as -> by (vm_compute; reflexivity).
  assert (Analyzer.init_subqueries f1 f2 f3 !! DIST_TBL_NAME =
            Some ("FROM read_csv(" +:+ py_repr f3 +:+ ", nullstr='XXX')"))
    as -> by (vm_compute; reflexivity).
  rewrite !py_repr_plain by done. rewrite !string_app_assoc.
  split; [reflexivity|]. split; [reflexivity|]. split; [reflexivity|].
  repeat (constructor; [reflexivity|]). constructor.
Qed.

Lemma X13_file_backed_subqueries_witness :
  Analyzer.init_subqueries SVCS_CSV_FILE STAT_CSV_FILE DIST_CSV_FILE
      !! SVCS_TBL_NAME = Some ("FROM '" +:+ SVCS_CSV_FILE +:+ "'") ∧
  Analyzer.init_subqueries SVCS_CSV_FILE STAT_CSV_FILE DIST_CSV_FILE
      !! STAT_TBL_NAME = Some ("FROM '" +:+ STAT_CSV_FILE +:+ "'") ∧
  Analyzer.init_subqueries SVCS_CSV_FILE STAT_CSV_FILE DIST_CSV_FILE
      !! DIST_TBL_NAME =
    Some ("FROM read_csv('" +:+ DIST_CSV_FILE +:+ "', nullstr='XXX')") ∧
  Forall (λ f, plain f = true)
    [SVCS_CSV_FILE; SVCS_CSV_URL; STAT_CSV_FILE; STAT_CSV_URL;
     DIST_CSV_FILE; DIST_CSV_URL].
Proof.
  apply (X13_file_backed_subqueries
           SVCS_CSV_FILE STAT_CSV_FILE DIST_CSV_FILE); reflexivity.
Defined.

(** ** More on the top-N query *)

Section TopNMore.

Context {station_name : Type}.

Implicit Types (r : TopN.row station_name) (tbl : list (TopN.row station_name))
  (out : list (TopN.result_row station_name)).

Local Open Scope Z_scope.

(** Whenever the query succeeds, what it lists is given by competition
    rank. *)
Lemma query_listed (n start end_ : Z) tbl out :
  TopN.query n start end_ tbl = Some out →
  ∀ m s,
    TopN.listed out m s ↔
    ∃ r, r ∈ tbl ∧ TopN.month r = m ∧ TopN.station r = s ∧
         start ≤ m ≤ end_ ∧ TopN.competition_rank tbl r ≤ n.
Proof.
  unfold TopN.query. intros Hq m s.
  destruct (TopN.inner start end_ tbl) as [rk|] eqn:Hinner; [|done].
  injection Hq as <-. rewrite outer_listed. split.
  - intros (y & Hy & Hrank & <- & <-).
    apply (mapM_elem_of _ _ _ y Hinner) in Hy as (r & Hr & Hf).
    apply list_elem_of_filter in Hr as [Hperiod Hr].
    destruct (TopN.month_name (TopN.month r)) as [nm|]; [|done].
    injection Hf as <-. cbn in *.
    exists r. repeat split; [done|lia..|].
    rewrite <- (rank_competition start end_) by (done || lia). done.
  - intros (r & Hr & <- & <- & Hperiod & Hrank).
    assert (Hrow : r ∈ filter (λ x, start ≤ TopN.month x ∧
                                    TopN.month x ≤ end_) tbl).
    { apply list_elem_of_filter. split; [lia|done]. }
    assert (Hsome : is_Some (mapM (λ r, name ← TopN.month_name (TopN.month r);
                     Some (TopN.mk_ranked (TopN.month r) name
                       (TopN.rank (filter (λ x, start ≤ TopN.month x ∧
                                                TopN.month x ≤ end_) tbl) r)
                       (TopN.station r) (TopN.num_services r)))
                     (filter (λ x, start ≤ TopN.month x ∧
                                   TopN.month x ≤ end_) tbl)))
      by (by exists rk).
    apply mapM_is_Some_1 in Hsome. rewrite Forall_forall in Hsome.
    destruct (Hsome r Hrow) as [y Hy]. cbn in Hy.
    destruct (TopN.month_name (TopN.month r)) as [nm|] eqn:Hnm; [|done].
    clear Hy.
    exists (TopN.mk_ranked (TopN.month r) nm
              (TopN.rank (filter (λ x, start ≤ TopN.month x ∧
                                       TopN.month x ≤ end_) tbl) r)
              (TopN.station r) (TopN.num_services r)).
    split; [|split; [|done]].
    + apply (mapM_elem_of _ _ _ _ Hinner). exists r. split; [done|].
      cbn. by rewrite Hnm.
    + cbn. rewrite rank_competition by (done || lia). done.
Qed.

End TopNMore.

(** X14: a larger [n] only adds stations: what the top-[n] query lists
    under a month, the top-[n'] query with [n <= n'] lists as well (same
    table, same months). *)
Theorem X14_top_n_monotone {station_name}
    (tbl : list (TopN.row station_name)) (n n' start end_ : Z)
    (out out' : list (TopN.result_row station_name)) :
  TopN.query n start end_ tbl = Some out →
  TopN.query n' start end_ tbl = Some out' →
  (n ≤ n')%Z →
  ∀ m s, TopN.listed out m s → TopN.listed out' m s.
Proof.
  intros Hq Hq' Hle m s.
  rewrite (query_listed _ _ _ _ _ Hq), (query_listed _ _ _ _ _ Hq').
  intros (r & Hr & Hm & Hs & Hperiod & Hrank).
  exists r. repeat split; [done..|lia|lia|lia].
Qed.

(** X15: with [n >= 1], a station that has the most services of its month
    (alone or tied) is listed under that month, if the month lies between
    [start] and [end]; so every month of the period that has a row in the
    table has a row in the result. *)
Theorem X15_busiest_station_listed {station_name}
    (tbl : list (TopN.row station_name)) (n start end_ : Z)
    (out : list (TopN.result_row station_name)) (r : TopN.row station_name) :
  TopN.query n start end_ tbl = Some out →
  (1 ≤ n)%Z → r ∈ tbl → (start ≤ TopN.month r ≤ end_)%Z →
  (∀ x, x ∈ tbl → TopN.month x = TopN.month r →
        (TopN.num_services x ≤ TopN.num_services r)%Z) →
  TopN.listed out (TopN.month r) (TopN.station r).
Proof.
  intros Hq Hn Hr Hperiod Hmax.
  apply (query_listed _ _ _ _ _ Hq). exists r.
  repeat split; [done|lia|lia|].
  unfold TopN.competition_rank. rewrite filter_none; [cbn; lia|].
  intros x Hx [Hm Hlt]. specialize (Hmax x Hx Hm). lia.
Qed.

Section TopNOrder.

Context {station_name : Type}.

Implicit Types (tbl : list (TopN.row station_name))
  (out : list (TopN.result_row station_name)).

Local Open Scope Z_scope.

Lemma filter_nothing {A} (P : A → Prop) `{!∀ x, Decision (P x)}
    (l : list A) :
  (∀ x, x ∈ l → ¬ P x) → filter P l = [].
Proof.
  induction l as [|y l IH]; intros Hnone; [done|].
  rewrite filter_cons_False by (apply Hnone; left).
  apply IH. intros x Hx. apply Hnone. by right.
Qed.

(** What the inner [SELECT] returns: each row carries the name of its
    month and a rank of at least 1. *)
Lemma inner_rows (start end_ : Z) tbl (rk : list (TopN.ranked station_name))
    (y : TopN.ranked station_name) :
  TopN.inner start end_ tbl = Some rk → y ∈ rk →
  TopN.month_name (TopN.r_month y) = Some (TopN.r_month_name y) ∧
  1 ≤ TopN.r_rank y.
Proof.
  intros Hinner Hy.
  apply (mapM_elem_of _ _ _ y Hinner) in Hy as (r & Hr & Hf).
  destruct (TopN.month_name (TopN.month r)) as [nm|] eqn:Hnm; [|done].
  injection Hf as <-. cbn. split; [done|]. unfold TopN.rank. lia.
Qed.

Local Instance by_month_transitive :
  Transitive (TopN.by_month (station_name := station_name)).
Proof. intros a b c. unfold TopN.by_month. lia. Qed.

Local Instance by_month_total :
  Total (TopN.by_month (station_name := station_name)).
Proof. intros a b. unfold TopN.by_month. lia. Qed.

Lemma sorted_le_nodup_lt (l : list Z) :
  StronglySorted Z.le l → NoDup l → StronglySorted Z.lt l.
Proof.
  induction 1 as [|x l Hl IH Hx]; intros Hnd; [constructor|].
  apply NoDup_cons in Hnd as [Hnotin Hnd].
  constructor; [by apply IH|].
  rewrite Forall_forall in Hx |- *. intros y Hy.
  specialize (Hx y Hy). assert (x ≠ y) by (by intros ->). lia.
Qed.

(** The rows of the outer [SELECT], before [ORDER BY]. *)
Lemma outer_perm (n : Z) (rows : list (TopN.ranked station_name)) :
  let kept := filter (λ z, TopN.r_rank z ≤ n) rows in
  let key (z : TopN.ranked station_name) :=
    (TopN.r_month z, TopN.r_month_name z) in
  TopN.outer n rows ≡ₚ
    (λ g, (g, TopN.r_station <$> filter (λ z, key z = g) kept))
      <$> remove_dups (key <$> kept).
Proof. apply merge_sort_Permutation. Qed.

Lemma outer_sorted (n : Z) (rows : list (TopN.ranked station_name)) :
  StronglySorted Z.le ((TopN.outer n rows).*1.*1).
Proof.
  apply (StronglySorted_fmap _ (λ a b : Z * string, a.1 ≤ b.1) Z.le);
    [done|].
  apply (StronglySorted_fmap _ TopN.by_month); [done|].
  apply (StronglySorted_merge_sort TopN.by_month).
Qed.

End TopNOrder.

(** X16: the query lists nothing when [n] is below 1, a rank being at least
    1, and nothing when [end] is below [start], no month lying between
    them; in the second case it cannot fail either. *)
Theorem X16_top_n_empty_cases {station_name}
    (tbl : list (TopN.row station_name)) (n start end_ : Z) :
  (∀ out, (n < 1)%Z → TopN.query n start end_ tbl = Some out → out = []) ∧
  ((end_ < start)%Z → TopN.query n start end_ tbl = Some []).
Proof.
  split.
  - intros out Hn. unfold TopN.query.
    destruct (TopN.inner start end_ tbl) as [rk|] eqn:Hinner; [|done].
    intros [= <-]. unfold TopN.outer.
    rewrite (filter_nothing (λ z, TopN.r_rank z ≤ n)%Z); [done|].
    intros y Hy. destruct (inner_rows _ _ _ _ y Hinner Hy) as [_ Hrank]. lia.
  - intros Hlt. unfold TopN.query, TopN.inner.
    rewrite filter_nothing; [done|]. intros x _. lia.
Qed.

(** X17: the result of the query has its months in strictly ascending
    order, so one row per month, and no row with an empty list of
    stations. *)
Theorem X17_top_n_rows_ordered {station_name}
    (tbl : list (TopN.row station_name)) (n start end_ : Z)
    (out : list (TopN.result_row station_name)) :
  TopN.query n start end_ tbl = Some out →
  StronglySorted Z.lt (out.*1.*1) ∧ Forall (λ row, row.2 ≠ []) out.
Proof.
  unfold TopN.query. intros Hq.
  destruct (TopN.inner start end_ tbl) as [rk|] eqn:Hinner; [|done].
  injection Hq as <-.
  pose proof (outer_perm n rk) as Hperm. cbn zeta in Hperm.
  set (kept := filter (λ z, TopN.r_rank z ≤ n)%Z rk) in *.
  set (key := λ z : TopN.ranked station_name,
                (TopN.r_month z, TopN.r_month_name z)) in *.
  assert (Hgroup : ∀ g, g ∈ remove_dups (key <$> kept) →
                        ∃ y, y ∈ kept ∧ key y = g ∧
                             TopN.month_name g.1 = Some g.2).
  { intros g Hg. apply elem_of_remove_dups, list_elem_of_fmap in Hg
      as (y & -> & Hy).
    exists y. split; [done|]. split; [done|].
    apply list_elem_of_filter in Hy as [_ Hy].
    by destruct (inner_rows _ _ _ _ y Hinner Hy). }
  split.
  - apply sorted_le_nodup_lt; [apply outer_sorted|].
    rewrite Hperm, <- !list_fmap_compose.
    apply NoDup_fmap_2_strong; [|apply NoDup_remove_dups].
    intros g g' Hg Hg' Heq. cbn in Heq.
    destruct (Hgroup g Hg) as (_ & _ & _ & Hname).
    destruct (Hgroup g' Hg') as (_ & _ & _ & Hname').
    destruct g as [m nm], g' as [m' nm']. cbn in *. subst m'.
    congruence.
  - rewrite Hperm. apply Forall_forall. intros row Hrow.
    apply list_elem_of_fmap in Hrow as (g & -> & Hg).
    destruct (Hgroup g Hg) as (y & Hy & Hkey & _). cbn.
    intros Hnil. apply fmap_nil_inv in Hnil.
    assert (Hin : y ∈ filter (λ z, key z = g) kept)
      by (by apply list_elem_of_filter).
    rewrite Hnil in Hin. by apply elem_of_nil in Hin.
Qed.

Lemma X14_top_n_monotone_witness :
  TopN.listed june_tie_top2 7 "Zwolle".
Proof.
  apply (X14_top_n_monotone june_tie 1 2 6 8 june_tie_top1 june_tie_top2).
  - vm_compute. reflexivity.
  - vm_compute. reflexivity.
  - lia.
  - exists "July", ["Zwolle"].
    split; apply list_elem_of_In; simpl; tauto.
Defined.

Lemma X15_busiest_station_listed_witness :
  TopN.listed june_tie_top2
    (TopN.month (TopN.mk_row 6 "Zwolle" 10))
    (TopN.station (TopN.mk_row 6 "Zwolle" 10)).
Proof.
  apply (X15_busiest_station_listed june_tie 2 6 8 june_tie_top2
           (TopN.mk_row 6 "Zwolle" 10)).
  - vm_compute. reflexivity.
  - lia.
  - apply list_elem_of_In. simpl. tauto.
  - simpl. lia.
  - intros x Hx _. apply list_elem_of_In in Hx. simpl in Hx.
    repeat (destruct Hx as [<-|Hx]; [simpl; lia|]). destruct Hx.
Defined.

Lemma X16_top_n_empty_cases_witness :
  (∀ out, (0 < 1)%Z → TopN.query 0 6 8 june_tie = Some out → out = []) ∧
  ((6 < 8)%Z → TopN.query 2 8 6 june_tie = Some []).
Proof.
  split.
  - apply (X16_top_n_empty_cases june_tie 0 6 8).
  - apply (X16_top_n_empty_cases june_tie 2 8 6).
Defined.

Lemma X17_top_n_rows_ordered_witness :
  StronglySorted Z.lt (june_tie_top2.*1.*1) ∧
  Forall (λ row, row.2 ≠ []) june_tie_top2.
Proof.
  apply (X17_top_n_rows_ordered june_tie 2 6 8 june_tie_top2).
  vm_compute. reflexivity.
Defined.
